(** * monitor-alert: the monitoring engine of [monitor_alert.go]

    A shallow embedding of the probe executor ([checkService]), the status
    tracker ([updateServiceStatus]) and the alert dispatcher ([sendAlerts],
    [sendRecoveryAlert]) together with the properties of the engine.

    Conventions.
    - Go [int] and [time.Duration] are 64-bit; they are integers of [Z] with
      the wrap-around written out ([wrap64]).
    - [time.Time] is a number of nanoseconds; every [time.Now()] (and
      [time.Since]) is one reading of the clock of the environment.
    - [m.serviceStatus] maps a name to a pointer to a record.  [NewMonitor]
      allocates one record per key, so no two keys alias and the map of
      pointers is a [gmap] from names to records; every field assignment
      through the pointer is an update of the map ([assign]).
    - What the program does to the outside (requests, sleeps, notifications,
      log lines) is appended to a chronological [trace].
    - [updateServiceStatus] holds [statusMutex] from its first line to its
      return, and each service is probed by one goroutine: the steps of the
      tracker for one service follow one another, which is what
      [applyOutcomes] and successive calls of [checkService] describe.  The
      ticker of [startMonitoring] and the [/health] handler are not part of
      the development. *)

From Stdlib Require Import ZArith Lia DecimalString.
From stdpp Require Import gmap strings list fin_maps.

Local Open Scope Z_scope.
Local Open Scope string_scope.

(** ** Machine integers *)

Definition wrap64 (z : Z) : Z := (z + 2 ^ 63) mod 2 ^ 64 - 2 ^ 63.

Definition Second : Z := 1000000000.

(** [fmt]'s [%d] verb. *)
Definition fmt_d (z : Z) : string := NilZero.string_of_int (Z.to_int z).

(** ** Configuration (lines 14-54) *)

Record SlackConfig := {
  WebhookURL : string;
  Channels : list string
}.

Record EmailConfig := {
  SMTPServer : string;
  SMTPPort : Z;
  Username : string;
  Password : string;
  Recipients : list string
}.

Record PagerDutyConfig := {
  ServiceKey : string;
  APIKey : string
}.

Record AlertConfig := {
  Slack : SlackConfig;
  Email : EmailConfig;
  PagerDuty : PagerDutyConfig
}.

Record ServiceConfig := {
  Name : string;
  URL : string;
  Method : string;
  Headers : gmap string string;
  ExpectedStatus : Z;
  Timeout : Z;
  CheckInterval : Z;
  RetryAttempts : Z;
  RetryDelay : Z;
  CriticalService : bool
}.

Record MonitorConfig := {
  Services : list ServiceConfig;
  Alerts : AlertConfig
}.

(** The zero value of [ServiceConfig] ([var serviceConfig ServiceConfig]). *)
Definition zeroServiceConfig : ServiceConfig :=
  {| Name := ""; URL := ""; Method := ""; Headers := ∅; ExpectedStatus := 0;
     Timeout := 0; CheckInterval := 0; RetryAttempts := 0; RetryDelay := 0;
     CriticalService := false |}.

(** ** The health record (lines 56-65) *)

Module ServiceStatus.

Record t := mk {
  Name : string;
  Status : bool;
  LastCheck : Z;
  LastError : string;
  FailureCount : Z;
  ResponseTime : Z;
  AlertSent : bool;
  RecoveryTime : option Z
}.

Definition set_Status (v : bool) (r : t) : t :=
  mk (Name r) v (LastCheck r) (LastError r) (FailureCount r) (ResponseTime r)
     (AlertSent r) (RecoveryTime r).

Definition set_LastCheck (v : Z) (r : t) : t :=
  mk (Name r) (Status r) v (LastError r) (FailureCount r) (ResponseTime r)
     (AlertSent r) (RecoveryTime r).

Definition set_LastError (v : string) (r : t) : t :=
  mk (Name r) (Status r) (LastCheck r) v (FailureCount r) (ResponseTime r)
     (AlertSent r) (RecoveryTime r).

Definition set_FailureCount (v : Z) (r : t) : t :=
  mk (Name r) (Status r) (LastCheck r) (LastError r) v (ResponseTime r)
     (AlertSent r) (RecoveryTime r).

Definition set_ResponseTime (v : Z) (r : t) : t :=
  mk (Name r) (Status r) (LastCheck r) (LastError r) (FailureCount r) v
     (AlertSent r) (RecoveryTime r).

Definition set_AlertSent (v : bool) (r : t) : t :=
  mk (Name r) (Status r) (LastCheck r) (LastError r) (FailureCount r)
     (ResponseTime r) v (RecoveryTime r).

Definition set_RecoveryTime (v : option Z) (r : t) : t :=
  mk (Name r) (Status r) (LastCheck r) (LastError r) (FailureCount r)
     (ResponseTime r) (AlertSent r) v.

(** [&ServiceStatus{Name: name, Status: true, LastCheck: now}] (lines 94-98):
    the other fields take their zero values. *)
Definition initial (name : string) (now : Z) : t :=
  mk name true now "" 0 0 false None.

End ServiceStatus.

(** ** The environment and the observable trace *)

(** What [client.Do] or [http.Post] comes back with. *)
Inductive Reply :=
| TransportError (err : string)
| Response (StatusCode : Z).

Record Request := {
  reqMethod : string;
  reqURL : string;
  reqHeader : gmap string string
}.

(** The environment of one execution: the successive readings of the clock,
    the replies to the successive outbound HTTP calls, and the error (if any)
    with which [http.NewRequest] rejects a method and a URL. *)
Record Env := {
  clock : nat -> Z;
  network : nat -> Reply;
  newRequestError : string -> string -> option string
}.

Inductive Effect :=
| ClientDo (req : Request) (timeout : Z)
    (* line 129: one probe request, with the client's timeout *)
| Sleep (d : Z)
    (* lines 132, 143 *)
| OutageStarted (service message : string)
    (* the tracker hands an outage to the dispatcher: [sendAlerts] is entered *)
| Recovered (service : string)
    (* the tracker hands a recovery over: [sendRecoveryAlert] is entered *)
| SlackAlert (webhook service message : string) (time : Z)
    (* line 189: the outage message posted to the chat webhook *)
| PagerDutyTrigger (serviceKey apiKey service message : string) (timestamp : Z)
    (* line 223: the trigger call to the paging backend *)
| SlackRecovery (webhook service : string) (downtime : Z) (time : Z)
    (* line 243: the recovery message; [downtime] is [duration] of line 234,
       which the text shows rounded to the second *)
| PagerDutyResolve (serviceKey service : string)
    (* line 254 *)
| LogPrintf (text : string).

(** The mutable state: the map of health records, how many times the clock
    was read, how many HTTP calls were made, and the trace so far. *)
Record World := {
  serviceStatus : gmap string ServiceStatus.t;
  clockReads : nat;
  httpCalls : nat;
  trace : list Effect
}.

(** ** A state monad with panics *)

Inductive Result (A : Type) :=
| Done (a : A) (w : World)
| Panic (reason : string) (w : World).

Arguments Done {A} a w.
Arguments Panic {A} reason w.

Definition M (A : Type) : Type := World -> Result A.

Definition ret {A} (a : A) : M A := fun w => Done a w.

Definition bind {A B} (c : M A) (k : A -> M B) : M B :=
  fun w =>
    match c w with
    | Done a w' => k a w'
    | Panic s w' => Panic s w'
    end.

Declare Scope go_scope.
Delimit Scope go_scope with go.
Notation "x <- c ;; k" := (bind c (fun x => k))
  (at level 100, c at next level, right associativity) : go_scope.
Notation "c ;; k" := (bind c (fun _ => k))
  (at level 100, right associativity) : go_scope.
Local Open Scope go_scope.

Definition panic {A} (reason : string) : M A := fun w => Panic reason w.

Definition nilDereference : string :=
  "invalid memory address or nil pointer dereference".

Definition emit (e : Effect) : M unit :=
  fun w =>
    Done tt {| serviceStatus := serviceStatus w; clockReads := clockReads w;
               httpCalls := httpCalls w; trace := (trace w ++ [e])%list |}.

(** Reading a field through [m.serviceStatus[name]]: a missing key gives the
    nil pointer, whose dereference panics. *)
Definition deref (name : string) : M ServiceStatus.t :=
  fun w =>
    match serviceStatus w !! name with
    | Some r => Done r w
    | None => Panic nilDereference w
    end.

(** Assigning to a field through the pointer. *)
Definition assign (name : string) (f : ServiceStatus.t -> ServiceStatus.t) : M unit :=
  fun w =>
    match serviceStatus w !! name with
    | Some r =>
        Done tt {| serviceStatus := <[name := f r]> (serviceStatus w);
                   clockReads := clockReads w; httpCalls := httpCalls w;
                   trace := trace w |}
    | None => Panic nilDereference w
    end.

Section Engine.

Variable env : Env.
Variable config : MonitorConfig.

(** [time.Now()] *)
Definition timeNow : M Z :=
  fun w =>
    Done (clock env (clockReads w))
         {| serviceStatus := serviceStatus w; clockReads := S (clockReads w);
            httpCalls := httpCalls w; trace := trace w |}.

(** [time.Since(t)] *)
Definition timeSince (t : Z) : M Z :=
  now <- timeNow ;; ret (now - t).

(** The reply to the next outbound HTTP call. *)
Definition roundTrip : M Reply :=
  fun w =>
    Done (network env (httpCalls w))
         {| serviceStatus := serviceStatus w; clockReads := clockReads w;
            httpCalls := S (httpCalls w); trace := trace w |}.

Definition nonEmpty (s : string) : bool := negb (String.eqb s "").

(** ** The alert dispatcher *)

(** Lines 178-196.  [json.Marshal] of a map of strings does not fail; the
    result is the error of [http.Post], if any. *)
Definition sendSlackAlert (service message : string) : M (option string) :=
  now <- timeNow ;;
  emit (SlackAlert (WebhookURL (Slack (Alerts config))) service message now) ;;
  reply <- roundTrip ;;
  match reply with
  | TransportError err => ret (Some err)
  | Response _ => ret None
  end.

(** Lines 198-230.  The request to the fixed enqueue URL is well formed; the
    result is the error of [m.httpClient.Do], if any. *)
Definition sendPagerDutyAlert (service message : string) : M (option string) :=
  now <- timeNow ;;
  emit (PagerDutyTrigger (ServiceKey (PagerDuty (Alerts config)))
                         (APIKey (PagerDuty (Alerts config)))
                         service message (now / Second)) ;;
  reply <- roundTrip ;;
  match reply with
  | TransportError err => ret (Some err)
  | Response _ => ret None
  end.

(** Lines 232-256. *)
Definition sendRecoveryAlert (service : string) : M unit :=
  emit (Recovered service) ;;
  status <- deref service ;;
  match ServiceStatus.RecoveryTime status with
  | None => panic nilDereference
  | Some recoveryTime =>
      duration <- timeSince recoveryTime ;;
      now <- timeNow ;;
      (if nonEmpty (WebhookURL (Slack (Alerts config))) then
         emit (SlackRecovery (WebhookURL (Slack (Alerts config))) service duration now) ;;
         _ <- roundTrip ;; ret tt
       else ret tt) ;;
      (if nonEmpty (ServiceKey (PagerDuty (Alerts config))) then
         emit (PagerDutyResolve (ServiceKey (PagerDuty (Alerts config))) service) ;;
         _ <- roundTrip ;; ret tt
       else ret tt)
  end.

(** Lines 260-266: the first configured service of that name, the zero value
    when there is none. *)
Fixpoint findService (services : list ServiceConfig) (service : string) : ServiceConfig :=
  match services with
  | [] => zeroServiceConfig
  | s :: rest => if String.eqb (Name s) service then s else findService rest service
  end.

(** Lines 258-281. *)
Definition sendAlerts (service message : string) : M unit :=
  emit (OutageStarted service message) ;;
  let serviceConfig := findService (Services config) service in
  (if nonEmpty (WebhookURL (Slack (Alerts config))) then
     err <- sendSlackAlert service message ;;
     match err with
     | Some e => emit (LogPrintf ("Error sending Slack alert: " ++ e))
     | None => ret tt
     end
   else ret tt) ;;
  (if CriticalService serviceConfig && nonEmpty (ServiceKey (PagerDuty (Alerts config))) then
     err <- sendPagerDutyAlert service message ;;
     match err with
     | Some e => emit (LogPrintf ("Error sending PagerDuty alert: " ++ e))
     | None => ret tt
     end
   else ret tt).

(** ** The status tracker (lines 149-176) *)

Definition updateServiceStatus (serviceName : string) (status : bool)
    (errMsg : string) (responseTime : Z) : M unit :=
  serviceStatus0 <- deref serviceName ;;
  let prevStatus := ServiceStatus.Status serviceStatus0 in
  assign serviceName (ServiceStatus.set_Status status) ;;
  now <- timeNow ;;
  assign serviceName (ServiceStatus.set_LastCheck now) ;;
  assign serviceName (ServiceStatus.set_ResponseTime responseTime) ;;
  if negb status then
    assign serviceName (ServiceStatus.set_LastError errMsg) ;;
    assign serviceName
      (fun r => ServiceStatus.set_FailureCount
                  (wrap64 (ServiceStatus.FailureCount r + 1)) r) ;;
    cur <- deref serviceName ;;
    if prevStatus && negb (ServiceStatus.AlertSent cur) then
      sendAlerts serviceName errMsg ;;
      assign serviceName (ServiceStatus.set_AlertSent true)
    else ret tt
  else if negb prevStatus && status then
    recoveryTime <- timeNow ;;
    assign serviceName (ServiceStatus.set_RecoveryTime (Some recoveryTime)) ;;
    assign serviceName (ServiceStatus.set_FailureCount 0) ;;
    assign serviceName (ServiceStatus.set_AlertSent false) ;;
    sendRecoveryAlert serviceName
  else ret tt.

End Engine.

(** ** The probe executor (lines 104-147) *)

(** [time.Duration(n) * time.Second] *)
Definition seconds (n : Z) : Z := wrap64 (n * Second).

(** The request of line 115 with the headers of lines 122-124: it keeps the
    method, the address and the headers of the service. *)
Definition requestOf (service : ServiceConfig) : Request :=
  {| reqMethod := Method service; reqURL := URL service; reqHeader := Headers service |}.

Section Probe.

Variable env : Env.
Variable config : MonitorConfig.

(** The loop of lines 128-144 followed by line 146.  [attempt] runs from 0
    while [attempt < service.RetryAttempts]: [attemptsLeft] counts the
    iterations still to run, [lastErr] is [None] for the nil error.  In the
    call of line 146 [lastErr.Error()] is evaluated before
    [time.Since(startTime)].  Closing the body of a response (line 142)
    leaves no mark on the trace. *)
Fixpoint retryLoop (service : ServiceConfig) (req : Request) (startTime : Z)
    (attemptsLeft : nat) (lastErr : option string) : M unit :=
  match attemptsLeft with
  | O =>
      match lastErr with
      | None => panic nilDereference
      | Some err =>
          elapsed <- timeSince env startTime ;;
          updateServiceStatus env config (Name service) false err elapsed
      end
  | S attemptsLeft' =>
      emit (ClientDo req (seconds (Timeout service))) ;;
      reply <- roundTrip env ;;
      match reply with
      | TransportError err =>
          emit (Sleep (seconds (RetryDelay service))) ;;
          retryLoop service req startTime attemptsLeft' (Some err)
      | Response StatusCode =>
          if (StatusCode =? ExpectedStatus service)%Z then
            elapsed <- timeSince env startTime ;;
            updateServiceStatus env config (Name service) true "" elapsed
          else
            emit (Sleep (seconds (RetryDelay service))) ;;
            retryLoop service req startTime attemptsLeft'
              (Some ("unexpected status code: " ++ fmt_d StatusCode))
      end
  end.

(** Line 106 reads the map without dereferencing the pointer and has no
    effect. *)
Definition checkService (service : ServiceConfig) : M unit :=
  startTime <- timeNow env ;;
  match newRequestError env (Method service) (URL service) with
  | Some err =>
      elapsed <- timeSince env startTime ;;
      updateServiceStatus env config (Name service) false err elapsed
  | None =>
      retryLoop service (requestOf service) startTime
        (Z.to_nat (RetryAttempts service)) None
  end.

(** ** Start-up (lines 86-99), from the parsed configuration *)

Definition store (name : string) (r : ServiceStatus.t) : M unit :=
  fun w =>
    Done tt {| serviceStatus := <[name := r]> (serviceStatus w);
               clockReads := clockReads w; httpCalls := httpCalls w;
               trace := trace w |}.

Fixpoint initServiceStatus (services : list ServiceConfig) : M unit :=
  match services with
  | [] => ret tt
  | service :: rest =>
      now <- timeNow env ;;
      store (Name service) (ServiceStatus.initial (Name service) now) ;;
      initServiceStatus rest
  end.

Definition emptyWorld : World :=
  {| serviceStatus := ∅; clockReads := 0; httpCalls := 0; trace := [] |}.

Definition NewMonitor : Result unit :=
  initServiceStatus (Services config) emptyWorld.

End Probe.

(** ** Sequences of outcomes for one service *)

Record Outcome := {
  success : bool;
  errorText : string;
  latency : Z
}.

(** The status tracker applied to the outcomes of successive probes. *)
Fixpoint applyOutcomes (env : Env) (config : MonitorConfig) (name : string)
    (outcomes : list Outcome) : M unit :=
  match outcomes with
  | [] => ret tt
  | o :: rest =>
      updateServiceStatus env config name (success o) (errorText o) (latency o) ;;
      applyOutcomes env config name rest
  end.

(** ** Observing a run *)

Definition world {A} (r : Result A) : World :=
  match r with
  | Done _ w => w
  | Panic _ w => w
  end.

(** What a computation adds to the trace. *)
Definition effectsOf {A} (c : M A) (w : World) : list Effect :=
  drop (length (trace w)) (trace (world (c w))).

Definition isClientDo (e : Effect) : bool :=
  match e with ClientDo _ _ => true | _ => false end.

Definition isSleep (e : Effect) : bool :=
  match e with Sleep _ => true | _ => false end.

Definition isSlackAlert (e : Effect) : bool :=
  match e with SlackAlert _ _ _ _ => true | _ => false end.

Definition isPagerDutyTrigger (e : Effect) : bool :=
  match e with PagerDutyTrigger _ _ _ _ _ => true | _ => false end.

(** The effects of the dispatcher's backends: neither a probe's nor a
    hand-over of the tracker. *)
Definition isBackend (e : Effect) : bool :=
  match e with
  | ClientDo _ _ | Sleep _ | OutageStarted _ _ | Recovered _ => false
  | _ => true
  end.

Definition countEffects (p : Effect -> bool) (fx : list Effect) : nat :=
  length (List.filter p fx).

(** The events the tracker raised for one service, oldest first. *)
Inductive Event := EvOutageStarted | EvRecovered.

Fixpoint trackerEvents (name : string) (fx : list Effect) : list Event :=
  match fx with
  | [] => []
  | OutageStarted s _ :: rest =>
      if String.eqb s name then EvOutageStarted :: trackerEvents name rest
      else trackerEvents name rest
  | Recovered s :: rest =>
      if String.eqb s name then EvRecovered :: trackerEvents name rest
      else trackerEvents name rest
  | _ :: rest => trackerEvents name rest
  end.

(** ** Runs of failures in a sequence of outcomes

    A sequence of outcomes is read through its success flags.  The record
    starts Up and line 155 stores the flag of each outcome as the health, so
    the health before outcome [i] is the flag of outcome [i-1], and Up before
    the first one. *)

(** The health before outcome [i]: [up] before the first outcome. *)
Definition healthBefore (up : bool) (l : list bool) (i : nat) : bool :=
  match i with
  | O => up
  | S j => default true (l !! j)
  end.

(** Outcome [i] is the first of a maximal contiguous run of failures: it is a
    failure and no failure comes just before it. *)
Definition beginsFailureRun (l : list bool) (i : nat) : bool :=
  match l !! i with
  | Some false => healthBefore true l i
  | _ => false
  end.

(** Outcome [i] takes the record from Down to Up. *)
Definition isDownToUp (l : list bool) (i : nat) : bool :=
  match l !! i with
  | Some true => negb (healthBefore true l i)
  | _ => false
  end.

(** The number of [i < n] with [p i]. *)
Fixpoint countBelow (p : nat -> bool) (n : nat) : nat :=
  match n with
  | O => O
  | S k => (countBelow p k + (if p k then 1 else 0))%nat
  end.

Definition failureRuns (l : list bool) : nat :=
  countBelow (beginsFailureRun l) (length l).

Definition downToUpTransitions (l : list bool) : nat :=
  countBelow (isDownToUp l) (length l).

Definition isOutageStarted (e : Event) : bool :=
  match e with EvOutageStarted => true | EvRecovered => false end.

Definition isRecovered (e : Event) : bool :=
  match e with EvRecovered => true | EvOutageStarted => false end.

Definition countEvents (p : Event -> bool) (evs : list Event) : nat :=
  length (List.filter p evs).

(** The events alternate; [down] tells whether an outage is open, in which
    case the next event has to be a recovery. *)
Fixpoint alternates (down : bool) (evs : list Event) : bool :=
  match evs with
  | [] => true
  | EvOutageStarted :: rest => negb down && alternates true rest
  | EvRecovered :: rest => down && alternates false rest
  end.

(** The number of outage starts after the last recovery. *)
Fixpoint outagesSinceRecovery (acc : nat) (evs : list Event) : nat :=
  match evs with
  | [] => acc
  | EvOutageStarted :: rest => outagesSinceRecovery (S acc) rest
  | EvRecovered :: rest => outagesSinceRecovery O rest
  end.

(** The error text of the most recent failure, [acc] when there is none. *)
Fixpoint lastFailureText (acc : string) (outcomes : list Outcome) : string :=
  match outcomes with
  | [] => acc
  | o :: rest => lastFailureText (if success o then acc else errorText o) rest
  end.

(** The events that a sequence of success flags has to raise from a record
    whose health is [up]. *)
Fixpoint expectedEvents (up : bool) (l : list bool) : list Event :=
  match l with
  | [] => []
  | s :: rest =>
      (if up && negb s then [EvOutageStarted]
       else if negb up && s then [EvRecovered] else []) ++ expectedEvents s rest
  end.

(** The record that [updateServiceStatus] leaves, from the record before,
    the outcome, and the clock readings of lines 156 and 170. *)
Definition recordAfter (r : ServiceStatus.t) (status : bool) (errMsg : string)
    (responseTime now recoveryTime : Z) : ServiceStatus.t :=
  if negb status then
    ServiceStatus.mk (ServiceStatus.Name r) false now errMsg
      (wrap64 (ServiceStatus.FailureCount r + 1)) responseTime
      (ServiceStatus.Status r && negb (ServiceStatus.AlertSent r)
       || ServiceStatus.AlertSent r)
      (ServiceStatus.RecoveryTime r)
  else if negb (ServiceStatus.Status r) then
    ServiceStatus.mk (ServiceStatus.Name r) true now (ServiceStatus.LastError r)
      0 responseTime false (Some recoveryTime)
  else
    ServiceStatus.mk (ServiceStatus.Name r) true now (ServiceStatus.LastError r)
      (ServiceStatus.FailureCount r) responseTime (ServiceStatus.AlertSent r)
      (ServiceStatus.RecoveryTime r).

(** The event of one step of the tracker. *)
Definition eventOfStep (r : ServiceStatus.t) (status : bool) : list Event :=
  if negb status then
    if ServiceStatus.Status r && negb (ServiceStatus.AlertSent r)
    then [EvOutageStarted] else []
  else if negb (ServiceStatus.Status r) then [EvRecovered] else [].

(** [steps r outcomes r' evs]: the tracker can take the record [r] to [r']
    along [outcomes], raising [evs]. *)
Inductive steps : ServiceStatus.t -> list Outcome -> ServiceStatus.t -> list Event -> Prop :=
| steps_nil r : steps r [] r []
| steps_cons r o now recoveryTime rest r' evs :
    steps (recordAfter r (success o) (errorText o) (latency o) now recoveryTime)
          rest r' evs ->
    steps r (o :: rest) r' (eventOfStep r (success o) ++ evs).

(** The flag of alert deduplication mirrors the health. *)
Definition flagMirrorsHealth (r : ServiceStatus.t) : Prop :=
  ServiceStatus.AlertSent r = negb (ServiceStatus.Status r).

(** The count is that of the open run of failures, at most [n]. *)
Definition countsOpenRun (n : Z) (r : ServiceStatus.t) : Prop :=
  0 <= ServiceStatus.FailureCount r <= n
  /\ (ServiceStatus.Status r = true -> ServiceStatus.FailureCount r = 0)
  /\ (ServiceStatus.Status r = false -> 0 < ServiceStatus.FailureCount r).

(** ** The vocabulary of a probe *)

Definition isProbe (e : Effect) : bool := isClientDo e || isSleep e.

(** An attempt fails on a transport error or on another status than expected. *)
Definition failing (service : ServiceConfig) (reply : Reply) : bool :=
  match reply with
  | TransportError _ => true
  | Response StatusCode => negb (StatusCode =? ExpectedStatus service)%Z
  end.

(** The error that a failed attempt leaves in [lastErr]. *)
Definition attemptError (reply : Reply) : string :=
  match reply with
  | TransportError err => err
  | Response StatusCode => "unexpected status code: " ++ fmt_d StatusCode
  end.

(** A request and the sleep that follows its failure. *)
Definition failedAttempt (service : ServiceConfig) : list Effect :=
  [ClientDo (requestOf service) (seconds (Timeout service));
   Sleep (seconds (RetryDelay service))].

(** The world after [k] failed attempts in a row. *)
Definition afterFailedAttempts (service : ServiceConfig) (k : nat) (w : World) : World :=
  {| serviceStatus := serviceStatus w; clockReads := clockReads w;
     httpCalls := httpCalls w + k;
     trace := (trace w ++ concat (replicate k (failedAttempt service)))%list |}.

(** How many of the [n] replies from call [h] on fail before the first that
    does not. *)
Fixpoint leadingFailures (env : Env) (service : ServiceConfig) (h n : nat) : nat :=
  match n with
  | O => O
  | S n' =>
      if failing service (network env h)
      then S (leadingFailures env service (S h) n')
      else O
  end.

(** The requests and sleeps of a probe of [n] attempts of which the first [k]
    fail. *)
Definition probeEffects (service : ServiceConfig) (k n : nat) : list Effect :=
  (concat (replicate k (failedAttempt service)) ++
   (if (k <? n)%nat then [ClientDo (requestOf service) (seconds (Timeout service))]
    else []))%list.

(** The effects of the backends on a recovery (lines 240-255). *)
Definition recoveryNotices (config : MonitorConfig) (service : string)
    (duration now : Z) : list Effect :=
  ((if nonEmpty (WebhookURL (Slack (Alerts config)))
    then [SlackRecovery (WebhookURL (Slack (Alerts config))) service duration now]
    else []) ++
   (if nonEmpty (ServiceKey (PagerDuty (Alerts config)))
    then [PagerDutyResolve (ServiceKey (PagerDuty (Alerts config))) service]
    else []))%list.

(** ** The goroutine of one service (lines 285-291) *)

(** [time.NewTicker] panics with this message on an interval that is not
    positive. *)
Definition nonPositiveInterval : string := "non-positive interval for NewTicker".

(** The loop of lines 287-290, cut after [rounds] turns: a probe, then the
    wait for the next tick, which changes nothing of the state. *)
Fixpoint monitorLoop (env : Env) (config : MonitorConfig) (service : ServiceConfig)
    (rounds : nat) : M unit :=
  match rounds with
  | O => ret tt
  | S rounds' =>
      checkService env config service ;;
      monitorLoop env config service rounds'
  end.

(** The body of the goroutine that [startMonitoring] starts for a service,
    followed for [rounds] turns of its loop, which has no exit. *)
Definition monitorService (env : Env) (config : MonitorConfig)
    (service : ServiceConfig) (rounds : nat) : M unit :=
  if (seconds (CheckInterval service) <=? 0)%Z then panic nonPositiveInterval
  else monitorLoop env config service rounds.

(** ** More of the vocabulary of traces *)

Definition isSlackRecovery (e : Effect) : bool :=
  match e with SlackRecovery _ _ _ _ => true | _ => false end.

Definition isPagerDutyResolve (e : Effect) : bool :=
  match e with PagerDutyResolve _ _ => true | _ => false end.

Definition isLogPrintf (e : Effect) : bool :=
  match e with LogPrintf _ => true | _ => false end.

Definition isTransportError (reply : Reply) : bool :=
  match reply with TransportError _ => true | Response _ => false end.


(** How many backends [sendAlerts] calls for a service: the chat webhook if
    its URL is set, the paging backend if its key is set and the configured
    service of that name is critical. *)
Definition backendsCalled (config : MonitorConfig) (service : string) : nat :=
  ((if nonEmpty (WebhookURL (Slack (Alerts config))) then 1 else 0) +
   (if CriticalService (findService (Services config) service)
       && nonEmpty (ServiceKey (PagerDuty (Alerts config)))
    then 1 else 0))%nat.

(** ** Sample configurations *)

Definition sampleAlerts : AlertConfig :=
  {| Slack := {| WebhookURL := "https://hooks.example/T0"; Channels := ["#incidents"] |};
     Email := {| SMTPServer := ""; SMTPPort := 0; Username := ""; Password := "";
                 Recipients := [] |};
     PagerDuty := {| ServiceKey := "pd-key"; APIKey := "pd-api" |} |}.

Definition sampleService (name : string) (retries : Z) (critical : bool) : ServiceConfig :=
  {| Name := name; URL := "https://api.example.com/health"; Method := "GET";
     Headers := ∅; ExpectedStatus := 200; Timeout := 5; CheckInterval := 30;
     RetryAttempts := retries; RetryDelay := 1; CriticalService := critical |}.

Definition sampleConfig : MonitorConfig :=
  {| Services := [sampleService "api" 3 true; sampleService "web" 1 false];
     Alerts := sampleAlerts |}.

(** A clock that advances by one second at each reading, a network on which
    every call meets status 500, and a [http.NewRequest] that rejects the
    methods with a space. *)
Definition sampleEnv : Env :=
  {| clock := fun n => Z.of_nat n * Second;
     network := fun _ => Response 500;
     newRequestError := fun method _ =>
       if String.eqb method "BAD METHOD"
       then Some "net/http: invalid method"
       else None |}.


Definition startWorld : World := world (NewMonitor sampleEnv sampleConfig).

Definition failed (text : string) : Outcome :=
  {| success := false; errorText := text; latency := 3 * Second |}.

Definition succeeded : Outcome :=
  {| success := true; errorText := ""; latency := Second |}.

Definition sampleOutcomes : list Outcome :=
  [succeeded; failed "timeout"; failed "unexpected status code: 500"; succeeded;
   failed "refused"; succeeded; succeeded].

(** An outage of one minute: the clock shows 0 s at start-up, 100 s at the
    check that fails (readings 2 to 4) and 160 s from the check that succeeds
    on. *)
Definition outageClock (n : nat) : Z :=
  if (n <? 2)%nat then 0 else if (n <? 5)%nat then 100 * Second else 160 * Second.

Definition outageEnv : Env :=
  {| clock := outageClock;
     network := fun _ => Response 200;
     newRequestError := fun _ _ => None |}.

Definition outageStart : World := world (NewMonitor outageEnv sampleConfig).

(** The record of [api] is Down, after one failed check. *)
Definition downWorld : World :=
  world (applyOutcomes sampleEnv sampleConfig "api" [failed "boom"] startWorld).

(** A network whose first reply is a status 500 and whose next ones are 200. *)
Definition flakyEnv : Env :=
  {| clock := fun n => Z.of_nat n * Second;
     network := fun n => match n with O => Response 500 | S _ => Response 200 end;
     newRequestError := fun _ _ => None |}.

(** Two services that bear the same name, the first one not critical. *)
Definition duplicateConfig : MonitorConfig :=
  {| Services := [sampleService "web" 1 false; sampleService "api" 3 false;
                  sampleService "api" 3 true];
     Alerts := sampleAlerts |}.

(** * Properties *)

(** ** The record along a sequence of outcomes *)

Lemma recordAfter_Status r s e rt now rec :
  ServiceStatus.Status (recordAfter r s e rt now rec) = s.
Proof. unfold recordAfter. destruct s, (ServiceStatus.Status r); reflexivity. Qed.

Lemma recordAfter_mirror r s e rt now rec :
  flagMirrorsHealth r -> flagMirrorsHealth (recordAfter r s e rt now rec).
Proof.
  unfold flagMirrorsHealth, recordAfter. intros ->.
  destruct s, (ServiceStatus.Status r); reflexivity.
Qed.

Lemma eventOfStep_mirror r s :
  flagMirrorsHealth r ->
  eventOfStep r s =
    if ServiceStatus.Status r && negb s then [EvOutageStarted]
    else if negb (ServiceStatus.Status r) && s then [EvRecovered] else [].
Proof.
  unfold flagMirrorsHealth, eventOfStep. intros ->.
  destruct s, (ServiceStatus.Status r); reflexivity.
Qed.

Lemma last_cons {A} (a d : A) l : List.last (a :: l) d = List.last l a.
Proof.
  revert a d. induction l as [|b l IH]; intros a d; [reflexivity|].
  change (List.last (a :: b :: l) d) with (List.last (b :: l) d).
  rewrite (IH b d). symmetry. apply IH.
Qed.

Lemma steps_events r l r' evs :
  steps r l r' evs ->
  flagMirrorsHealth r ->
  evs = expectedEvents (ServiceStatus.Status r) (map success l)
  /\ flagMirrorsHealth r'
  /\ ServiceStatus.Status r' = List.last (map success l) (ServiceStatus.Status r).
Proof.
  induction 1 as [r|r o now rec rest r' evs Hst IH]; intros Hm.
  - auto.
  - destruct (IH (recordAfter_mirror _ _ _ _ _ _ Hm)) as (-> & Hm' & Hlast).
    rewrite recordAfter_Status in *.
    split; [|split; [exact Hm'|]].
    + cbn [map expectedEvents]. rewrite eventOfStep_mirror by exact Hm. reflexivity.
    + rewrite Hlast. cbn [map]. symmetry. apply last_cons.
Qed.

(** *** Counting *)

Lemma countBelow_ext p q n :
  (forall i, (i < n)%nat -> p i = q i) -> countBelow p n = countBelow q n.
Proof.
  induction n as [|n IH]; intros H; [reflexivity|].
  cbn [countBelow]. rewrite IH, H by (intros; try apply H; lia). reflexivity.
Qed.

Lemma countBelow_S p n :
  countBelow p (S n) = ((if p O then 1 else 0) + countBelow (fun i => p (S i)) n)%nat.
Proof.
  induction n as [|n IH]; [cbn; lia|].
  change (countBelow p (S (S n)))
    with (countBelow p (S n) + (if p (S n) then 1 else 0))%nat.
  rewrite IH. cbn [countBelow]. lia.
Qed.

Lemma count_outages up l :
  countEvents isOutageStarted (expectedEvents up l) =
  countBelow (fun i => match l !! i with
                       | Some false => healthBefore up l i
                       | _ => false
                       end) (length l).
Proof.
  revert up. induction l as [|s rest IH]; intros up; [reflexivity|].
  cbn [length]. rewrite countBelow_S. cbn [expectedEvents].
  unfold countEvents in *. rewrite List.filter_app, length_app, IH.
  f_equal.
  - destruct up, s; reflexivity.
  - apply countBelow_ext. intros i _. cbn [lookup list_lookup].
    destruct i; reflexivity.
Qed.

Lemma count_recoveries up l :
  countEvents isRecovered (expectedEvents up l) =
  countBelow (fun i => match l !! i with
                       | Some true => negb (healthBefore up l i)
                       | _ => false
                       end) (length l).
Proof.
  revert up. induction l as [|s rest IH]; intros up; [reflexivity|].
  cbn [length]. rewrite countBelow_S. cbn [expectedEvents].
  unfold countEvents in *. rewrite List.filter_app, length_app, IH.
  f_equal.
  - destruct up, s; reflexivity.
  - apply countBelow_ext. intros i _. cbn [lookup list_lookup].
    destruct i; reflexivity.
Qed.

Lemma expectedEvents_alternate up l :
  alternates (negb up) (expectedEvents up l) = true.
Proof.
  revert up. induction l as [|s rest IH]; intros up; [reflexivity|].
  cbn [expectedEvents]. specialize (IH s).
  destruct up, s; cbn [andb negb app alternates] in *; auto.
Qed.

Lemma outagesSince_expected (up : bool) l :
  outagesSinceRecovery (if up then 0 else 1)%nat (expectedEvents up l) =
  (if List.last l up then 0 else 1)%nat.
Proof.
  revert up. induction l as [|s rest IH]; intros up; [reflexivity|].
  cbn [expectedEvents]. specialize (IH s).
  rewrite last_cons.
  destruct up, s; cbn [andb negb app outagesSinceRecovery] in *; auto.
Qed.

(** *** The failure count *)

Lemma wrap64_small z : - 2 ^ 63 <= z < 2 ^ 63 -> wrap64 z = z.
Proof. intros H. unfold wrap64. rewrite Z.mod_small; lia. Qed.

Lemma recordAfter_FailureCount r s e rt now rec n :
  countsOpenRun n r -> n < 2 ^ 63 - 1 ->
  ServiceStatus.FailureCount (recordAfter r s e rt now rec) =
    (if s then 0 else ServiceStatus.FailureCount r + 1).
Proof.
  intros (Hb & Hup & _) Hn. unfold recordAfter.
  destruct s; cbn [negb].
  - destruct (ServiceStatus.Status r); cbn [negb ServiceStatus.FailureCount]; auto.
  - cbn [ServiceStatus.FailureCount]. apply wrap64_small. lia.
Qed.

Lemma recordAfter_countsOpenRun r s e rt now rec n :
  countsOpenRun n r -> n < 2 ^ 63 - 1 ->
  countsOpenRun (n + 1) (recordAfter r s e rt now rec).
Proof.
  intros H Hn. pose proof (recordAfter_FailureCount r s e rt now rec n H Hn) as E.
  destruct H as (Hb & Hup & Hdown).
  unfold countsOpenRun. rewrite E, recordAfter_Status.
  destruct s; repeat split; intros; try discriminate; lia.
Qed.

Lemma steps_countsOpenRun r l r' evs :
  steps r l r' evs ->
  forall n, countsOpenRun n r -> n + Z.of_nat (length l) < 2 ^ 63 ->
  countsOpenRun (n + Z.of_nat (length l)) r'.
Proof.
  induction 1 as [r|r o now rec rest r' evs Hst IH]; intros n Hc Hn.
  - cbn [length] in *. rewrite Z.add_0_r. exact Hc.
  - cbn [length] in *.
    replace (n + Z.of_nat (S (length rest))) with (n + 1 + Z.of_nat (length rest)) by lia.
    apply IH; [|lia]. apply recordAfter_countsOpenRun; [exact Hc|lia].
Qed.

(** *** The last error *)

Lemma recordAfter_LastError r s e rt now rec :
  ServiceStatus.LastError (recordAfter r s e rt now rec) =
    (if s then ServiceStatus.LastError r else e).
Proof. unfold recordAfter. destruct s, (ServiceStatus.Status r); reflexivity. Qed.

Lemma steps_LastError r l r' evs :
  steps r l r' evs ->
  ServiceStatus.LastError r' = lastFailureText (ServiceStatus.LastError r) l.
Proof.
  induction 1 as [r|r o now rec rest r' evs Hst IH]; [reflexivity|].
  rewrite IH, recordAfter_LastError. reflexivity.
Qed.

(** ** Traces *)

Lemma backend_not_probe fx :
  forallb isBackend fx = true -> forallb (fun e => negb (isProbe e)) fx = true.
Proof.
  induction fx as [|e fx IH]; [reflexivity|].
  cbn [forallb]. intros [He Hfx]%andb_prop. rewrite (IH Hfx).
  destruct e; try discriminate He; reflexivity.
Qed.

Lemma backend_no_events name fx :
  forallb isBackend fx = true -> trackerEvents name fx = [].
Proof.
  induction fx as [|e fx IH]; [reflexivity|].
  cbn [forallb]. intros [He Hfx]%andb_prop.
  destruct e; try discriminate He; cbn [trackerEvents]; auto.
Qed.

Lemma trackerEvents_app name fx1 fx2 :
  trackerEvents name (fx1 ++ fx2) = (trackerEvents name fx1 ++ trackerEvents name fx2)%list.
Proof.
  induction fx1 as [|e fx1 IH]; [reflexivity|].
  destruct e; cbn [app trackerEvents]; try exact IH;
    destruct (String.eqb _ _); cbn [app]; congruence.
Qed.

Lemma effectsOf_app {A} (c : M A) w fx :
  trace (world (c w)) = (trace w ++ fx)%list -> effectsOf c w = fx.
Proof. unfold effectsOf. intros ->. apply drop_app_length. Qed.

Lemma filter_not_probe fx :
  forallb (fun e => negb (isProbe e)) fx = true -> List.filter isProbe fx = [].
Proof.
  induction fx as [|e fx IH]; [reflexivity|].
  cbn [forallb List.filter]. intros [He Hfx]%andb_prop.
  destruct (isProbe e); [discriminate|auto].
Qed.

Lemma afterFailedAttempts_S service k w :
  afterFailedAttempts service k (afterFailedAttempts service 1 w)
  = afterFailedAttempts service (S k) w.
Proof.
  unfold afterFailedAttempts. cbn [serviceStatus clockReads httpCalls trace].
  f_equal; [lia|]. cbn [replicate concat]. rewrite app_nil_r, <- app_assoc.
  reflexivity.
Qed.

Lemma filter_probe_app fx1 fx2 :
  List.filter isProbe (fx1 ++ fx2) = (List.filter isProbe fx1 ++ List.filter isProbe fx2)%list.
Proof. apply List.filter_app. Qed.

Lemma count_requests_probe fx :
  countEffects isClientDo fx = countEffects isClientDo (List.filter isProbe fx).
Proof.
  unfold countEffects. induction fx as [|e fx IH]; [reflexivity|].
  destruct e; cbn [List.filter isProbe isClientDo isSleep orb length]; auto.
Qed.

Lemma count_sleeps_probe fx :
  countEffects isSleep fx = countEffects isSleep (List.filter isProbe fx).
Proof.
  unfold countEffects. induction fx as [|e fx IH]; [reflexivity|].
  destruct e; cbn [List.filter isProbe isClientDo isSleep orb length]; auto.
Qed.

Lemma count_requests_failed service k :
  countEffects isClientDo (concat (replicate k (failedAttempt service))) = k.
Proof.
  unfold countEffects. induction k as [|k IH]; [reflexivity|].
  cbn [replicate concat failedAttempt app List.filter isClientDo length]. auto.
Qed.

Lemma count_sleeps_failed service k :
  countEffects isSleep (concat (replicate k (failedAttempt service))) = k.
Proof.
  unfold countEffects. induction k as [|k IH]; [reflexivity|].
  cbn [replicate concat failedAttempt app List.filter isSleep length]. auto.
Qed.

Lemma lastFailureText_all_success acc outcomes :
  forallb success outcomes = true -> lastFailureText acc outcomes = acc.
Proof.
  revert acc. induction outcomes as [|o rest IH]; intros acc; [reflexivity|].
  cbn [forallb lastFailureText]. intros [Ho Hrest]%andb_prop.
  rewrite Ho. apply IH, Hrest.
Qed.

Lemma findService_unique services s :
  NoDup (map Name services) -> In s services ->
  findService services (Name s) = s.
Proof.
  induction services as [|a rest IH]; intros Hnd Hin; [destruct Hin|].
  cbn [findService]. cbn [map] in Hnd. apply NoDup_cons in Hnd as [Ha Hnd].
  destruct Hin as [->|Hin]; [rewrite String.eqb_refl; reflexivity|].
  destruct (String.eqb_spec (Name a) (Name s)) as [Heq|_]; [|auto].
  exfalso. apply Ha. rewrite Heq. apply list_elem_of_In, in_map, Hin.
Qed.

Ltac norm_trace := rewrite <- ?app_assoc; cbn [app].

(** One more step through the dispatcher, with a case on the reply of the
    network where one is awaited. *)
Ltac run_step :=
  unfold bind, ret, emit, timeNow, timeSince, roundTrip, panic;
  cbn [serviceStatus clockReads httpCalls trace world];
  try match goal with
  | |- context [network ?e ?h] =>
      lazymatch h with
      | httpCalls _ => destruct (network e h)
      | S _ => destruct (network e h)
      end
  end.

Section Facts.

Variable env : Env.
Variable config : MonitorConfig.

(** ** The dispatcher *)

(** [sendAlerts] always returns, leaves the records alone and adds the
    hand-over followed by effects of the backends. *)
Lemma sendAlerts_Done service message w :
  exists w' fx,
    sendAlerts env config service message w = Done tt w'
    /\ serviceStatus w' = serviceStatus w
    /\ trace w' = (trace w ++ OutageStarted service message :: fx)%list
    /\ forallb isBackend fx = true.
Proof.
  unfold sendAlerts, sendSlackAlert, sendPagerDutyAlert.
  destruct (nonEmpty (WebhookURL (Slack (Alerts config))));
    destruct (CriticalService _ && nonEmpty _);
    repeat run_step.
  all: eexists _, _; (split; [reflexivity|]); (split; [reflexivity|]);
      norm_trace; (split; [reflexivity|]); try reflexivity.
Qed.

Lemma recoveryNotices_backend service duration now :
  forallb isBackend (recoveryNotices config service duration now) = true.
Proof.
  unfold recoveryNotices.
  destruct (nonEmpty (WebhookURL _)); destruct (nonEmpty (ServiceKey _)); reflexivity.
Qed.

(** [sendRecoveryAlert] on a record with its recovery time set. *)
Lemma sendRecoveryAlert_Done service w r t :
  serviceStatus w !! service = Some r ->
  ServiceStatus.RecoveryTime r = Some t ->
  exists w',
    sendRecoveryAlert env config service w = Done tt w'
    /\ serviceStatus w' = serviceStatus w
    /\ trace w' =
         (trace w ++ Recovered service ::
            recoveryNotices config service (clock env (clockReads w) - t)
              (clock env (S (clockReads w))))%list.
Proof.
  intros Hr Ht. unfold sendRecoveryAlert, recoveryNotices, deref.
  unfold bind at 1 2. unfold emit at 1.
  cbn [serviceStatus clockReads httpCalls trace]. rewrite Hr, Ht.
  destruct (nonEmpty (WebhookURL _)); destruct (nonEmpty (ServiceKey _));
    repeat run_step.
  all: eexists; (split; [reflexivity|]); (split; [reflexivity|]);
    norm_trace; reflexivity.
Qed.

(** ** The tracker *)

(** One step of the tracker on a registered service. *)
Lemma updateServiceStatus_Done name status errMsg responseTime w r :
  serviceStatus w !! name = Some r ->
  exists w' fx,
    updateServiceStatus env config name status errMsg responseTime w = Done tt w'
    /\ serviceStatus w' =
         <[name := recordAfter r status errMsg responseTime
                     (clock env (clockReads w)) (clock env (S (clockReads w)))]>
           (serviceStatus w)
    /\ trace w' = (trace w ++ fx)%list
    /\ trackerEvents name fx = eventOfStep r status
    /\ forallb (fun e => negb (isProbe e)) fx = true.
Proof.
  intros Hr. unfold updateServiceStatus, recordAfter, eventOfStep.
  destruct r as [n st lc le fc rt al rec].
  destruct status, st; cbn [negb andb orb ServiceStatus.Status ServiceStatus.AlertSent].
  all: unfold deref, assign, bind, timeNow, ret.
  all: repeat (cbn [serviceStatus clockReads httpCalls trace negb andb orb
                   ServiceStatus.Status ServiceStatus.AlertSent
                   ServiceStatus.set_Status ServiceStatus.set_LastCheck
                   ServiceStatus.set_ResponseTime ServiceStatus.set_LastError
                   ServiceStatus.set_FailureCount ServiceStatus.set_AlertSent
                   ServiceStatus.set_RecoveryTime ServiceStatus.Name
                   ServiceStatus.LastCheck ServiceStatus.LastError
                   ServiceStatus.FailureCount ServiceStatus.ResponseTime
                   ServiceStatus.RecoveryTime];
               rewrite ?Hr, ?lookup_insert_eq).
  - (* Up, success *)
    eexists _, []. rewrite !insert_insert_eq, app_nil_r. auto.
  - (* Down, success: recovery *)
    match goal with
    | |- context [sendRecoveryAlert env config name ?W] =>
        edestruct (sendRecoveryAlert_Done name W) as (w' & E & Hs & Ht);
          [cbn [serviceStatus]; apply lookup_insert_eq | reflexivity | rewrite E]
    end.
    cbn [serviceStatus clockReads httpCalls trace] in Hs, Ht.
    eexists _, _. split; [reflexivity|]. rewrite Hs, Ht, !insert_insert_eq.
    split; [reflexivity|]. split; [reflexivity|].
    cbn [trackerEvents forallb isProbe isClientDo isSleep orb negb andb].
    rewrite String.eqb_refl.
    rewrite backend_no_events, backend_not_probe by apply recoveryNotices_backend.
    auto.
  - (* Up, failure *)
    destruct al; cbn [negb andb orb].
    + eexists _, []. rewrite !insert_insert_eq, app_nil_r. auto.
    + match goal with
      | |- context [sendAlerts env config name errMsg ?W] =>
          destruct (sendAlerts_Done name errMsg W) as (w' & fx & E & Hs & Ht & Hb);
            rewrite E
      end.
      cbn [serviceStatus clockReads httpCalls trace] in Hs, Ht.
      rewrite Hs, lookup_insert_eq.
      cbn [serviceStatus clockReads httpCalls trace ServiceStatus.set_AlertSent
           ServiceStatus.Name ServiceStatus.Status
           ServiceStatus.LastCheck ServiceStatus.LastError
           ServiceStatus.FailureCount ServiceStatus.ResponseTime
           ServiceStatus.RecoveryTime].
      eexists _, _. split; [reflexivity|].
      cbn [serviceStatus clockReads httpCalls trace].
      rewrite Ht, !insert_insert_eq.
      split; [reflexivity|]. split; [reflexivity|].
      cbn [trackerEvents forallb isProbe isClientDo isSleep orb negb andb].
      rewrite String.eqb_refl.
      rewrite backend_no_events, backend_not_probe by assumption. auto.
  - (* Down, failure *)
    eexists _, []. rewrite !insert_insert_eq, app_nil_r. auto.
Qed.


(** The recovery of a Down record: the downtime of the recovery message is the
    time between the clock readings of lines 170 and 234, the second and the
    third of the step, whatever the record holds. *)
Lemma updateServiceStatus_recovery name errMsg responseTime w r :
  serviceStatus w !! name = Some r ->
  ServiceStatus.Status r = false ->
  exists w',
    updateServiceStatus env config name true errMsg responseTime w = Done tt w'
    /\ trace w' =
         (trace w ++ Recovered name ::
            recoveryNotices config name
              (clock env (S (S (clockReads w))) - clock env (S (clockReads w)))
              (clock env (S (S (S (clockReads w))))))%list.
Proof.
  intros Hr Hst. unfold updateServiceStatus.
  destruct r as [n st lc le fc rt al rec]. cbn in Hst. subst st.
  unfold deref, assign, bind, timeNow, ret.
  repeat (cbn [serviceStatus clockReads httpCalls trace negb andb orb
               ServiceStatus.Status]; rewrite ?Hr, ?lookup_insert_eq).
  match goal with
  | |- context [sendRecoveryAlert env config name ?W] =>
      edestruct (sendRecoveryAlert_Done name W) as (w' & E & Hs & Ht);
        [cbn [serviceStatus]; apply lookup_insert_eq | reflexivity | rewrite E]
  end.
  cbn [serviceStatus clockReads httpCalls trace] in Ht.
  eexists. split; [reflexivity|]. exact Ht.
Qed.

(** The code follows [steps]. *)
Lemma applyOutcomes_steps name outcomes : forall w r,
  serviceStatus w !! name = Some r ->
  exists w' r' fx,
    applyOutcomes env config name outcomes w = Done tt w'
    /\ serviceStatus w' !! name = Some r'
    /\ trace w' = (trace w ++ fx)%list
    /\ steps r outcomes r' (trackerEvents name fx)
    /\ forallb (fun e => negb (isProbe e)) fx = true.
Proof.
  induction outcomes as [|o rest IH]; intros w r Hr.
  - exists w, r, []. rewrite app_nil_r. repeat split; auto. constructor.
  - cbn [applyOutcomes]. unfold bind.
    destruct (updateServiceStatus_Done name (success o) (errorText o) (latency o) w r Hr)
      as (w1 & fx1 & E & Hs & Ht & Hev & Hp).
    rewrite E.
    destruct (IH w1 _ ltac:(rewrite Hs; apply lookup_insert_eq))
      as (w' & r' & fx & E' & Hr' & Ht' & Hst & Hp').
    exists w', r', (fx1 ++ fx)%list. split; [exact E'|]. split; [exact Hr'|].
    split; [rewrite Ht', Ht, app_assoc; reflexivity|].
    split.
    + rewrite trackerEvents_app, Hev. econstructor. exact Hst.
    + rewrite forallb_app, Hp, Hp'. reflexivity.
Qed.

Lemma initial_mirror name now : flagMirrorsHealth (ServiceStatus.initial name now).
Proof. reflexivity. Qed.

(** The run of the tracker from the initial record, with what it leaves. *)
Lemma applyOutcomes_initial name now outcomes w :
  serviceStatus w !! name = Some (ServiceStatus.initial name now) ->
  exists w' r',
    applyOutcomes env config name outcomes w = Done tt w'
    /\ serviceStatus w' !! name = Some r'
    /\ steps (ServiceStatus.initial name now) outcomes r'
         (trackerEvents name (effectsOf (applyOutcomes env config name outcomes) w)).
Proof.
  intros Hr.
  destruct (applyOutcomes_steps name outcomes w _ Hr)
    as (w' & r' & fx & E & Hr' & Ht & Hst & _).
  exists w', r'. split; [exact E|]. split; [exact Hr'|].
  rewrite (effectsOf_app _ w fx); [exact Hst|]. rewrite E. exact Ht.
Qed.

(** C1.  From the initial Up record, the tracker returns on every sequence of
    outcomes, raises as many outage starts as there are maximal runs of
    failures and as many recoveries as there are Down-to-Up transitions, and
    the two alternate, an outage start first: no two outage starts without a
    recovery in between. *)
Theorem tracker_one_event_per_transition name now outcomes w :
  serviceStatus w !! name = Some (ServiceStatus.initial name now) ->
  let evs := trackerEvents name (effectsOf (applyOutcomes env config name outcomes) w) in
  (exists w', applyOutcomes env config name outcomes w = Done tt w')
  /\ countEvents isOutageStarted evs = failureRuns (map success outcomes)
  /\ countEvents isRecovered evs = downToUpTransitions (map success outcomes)
  /\ alternates false evs = true.
Proof.
  intros Hr evs.
  destruct (applyOutcomes_initial name now outcomes w Hr) as (w' & r' & E & _ & Hst).
  destruct (steps_events _ _ _ _ Hst (initial_mirror name now)) as (Hev & _).
  fold evs in Hev. cbn [ServiceStatus.initial ServiceStatus.Status] in Hev.
  split; [eauto|]. rewrite Hev.
  split; [|split].
  - rewrite count_outages. unfold failureRuns. rewrite length_map. reflexivity.
  - rewrite count_recoveries. unfold downToUpTransitions.
    rewrite length_map. reflexivity.
  - apply (expectedEvents_alternate true).
Qed.

(** C6 (amended).  From the initial record, the last error is the error text
    of the most recent failure, whatever the health, and is empty as long as
    no failure was applied. *)
Theorem lastError_is_last_failure name now outcomes w :
  serviceStatus w !! name = Some (ServiceStatus.initial name now) ->
  exists w' r',
    applyOutcomes env config name outcomes w = Done tt w'
    /\ serviceStatus w' !! name = Some r'
    /\ ServiceStatus.LastError r' = lastFailureText "" outcomes
    /\ (forallb success outcomes = true -> ServiceStatus.LastError r' = "").
Proof.
  intros Hr.
  destruct (applyOutcomes_initial name now outcomes w Hr) as (w' & r' & E & Hr' & Hst).
  exists w', r'. split; [exact E|]. split; [exact Hr'|].
  pose proof (steps_LastError _ _ _ _ Hst) as HL.
  cbn [ServiceStatus.initial ServiceStatus.LastError] in HL.
  split; [exact HL|]. intros Hall. rewrite HL.
  apply lastFailureText_all_success, Hall.
Qed.

(** C8.  Every record reached from the initial one has [AlertSent] set only
    while it is Down, and at most one outage start was raised since the last
    recovery. *)
Theorem alertSent_only_while_down name now outcomes w :
  serviceStatus w !! name = Some (ServiceStatus.initial name now) ->
  exists w' r',
    applyOutcomes env config name outcomes w = Done tt w'
    /\ serviceStatus w' !! name = Some r'
    /\ (ServiceStatus.AlertSent r' = true -> ServiceStatus.Status r' = false)
    /\ (outagesSinceRecovery 0
          (trackerEvents name (effectsOf (applyOutcomes env config name outcomes) w))
        <= 1)%nat.
Proof.
  intros Hr.
  destruct (applyOutcomes_initial name now outcomes w Hr) as (w' & r' & E & Hr' & Hst).
  destruct (steps_events _ _ _ _ Hst (initial_mirror name now)) as (Hev & Hm & _).
  exists w', r'. split; [exact E|]. split; [exact Hr'|]. split.
  - unfold flagMirrorsHealth in Hm. rewrite Hm.
    destruct (ServiceStatus.Status r'); [discriminate|reflexivity].
  - rewrite Hev. cbn [ServiceStatus.initial ServiceStatus.Status].
    rewrite (outagesSince_expected true).
    destruct (List.last _ _); lia.
Qed.

Lemma initial_countsOpenRun name now : countsOpenRun 0 (ServiceStatus.initial name now).
Proof. unfold countsOpenRun. cbn. repeat split; intros; try discriminate; lia. Qed.

(** C9.  After any sequence of outcomes from the initial record (short of
    the 2^63 failures that would overflow the counter), the failure count is
    0 when the record is Up and positive when it is Down; one more failure
    adds one to it, one more success leaves it at 0. *)
Theorem failureCount_follows_down_run name now outcomes o w :
  serviceStatus w !! name = Some (ServiceStatus.initial name now) ->
  Z.of_nat (length outcomes) < 2 ^ 63 - 1 ->
  exists w1 r1 w2 r2,
    applyOutcomes env config name outcomes w = Done tt w1
    /\ serviceStatus w1 !! name = Some r1
    /\ updateServiceStatus env config name (success o) (errorText o) (latency o) w1
       = Done tt w2
    /\ serviceStatus w2 !! name = Some r2
    /\ (ServiceStatus.Status r1 = true -> ServiceStatus.FailureCount r1 = 0)
    /\ (ServiceStatus.Status r1 = false -> 0 < ServiceStatus.FailureCount r1)
    /\ (success o = false ->
        ServiceStatus.FailureCount r2 = ServiceStatus.FailureCount r1 + 1)
    /\ (success o = true -> ServiceStatus.FailureCount r2 = 0).
Proof.
  intros Hr Hlen.
  destruct (applyOutcomes_initial name now outcomes w Hr) as (w1 & r1 & E & Hr1 & Hst).
  pose proof (steps_countsOpenRun _ _ _ _ Hst 0 (initial_countsOpenRun name now)
                ltac:(lia)) as Hc.
  destruct (updateServiceStatus_Done name (success o) (errorText o)
              (latency o) w1 r1 Hr1) as (w2 & fx & E2 & Hs2 & _).
  eexists w1, r1, w2, _. split; [exact E|]. split; [exact Hr1|].
  split; [exact E2|]. split; [rewrite Hs2; apply lookup_insert_eq|].
  destruct Hc as (Hb & Hup & Hdown). split; [exact Hup|]. split; [exact Hdown|].
  rewrite (recordAfter_FailureCount r1 (success o) _ _ _ _ (0 + Z.of_nat (length outcomes)))
    by (unfold countsOpenRun; auto || lia).
  split; intros ->; reflexivity.
Qed.

(** C7.  On an outage, the dispatcher posts one message to the chat webhook
    if and only if its URL is configured, and makes one trigger call to the
    paging backend if and only if the service is critical and the paging key
    is configured; for a service that is not critical there is no paging call. *)
Theorem sendAlerts_criticality_policy s message w :
  In s (Services config) ->
  NoDup (map Name (Services config)) ->
  let fx := effectsOf (sendAlerts env config (Name s) message) w in
  countEffects isSlackAlert fx
    = (if nonEmpty (WebhookURL (Slack (Alerts config))) then 1 else 0)%nat
  /\ countEffects isPagerDutyTrigger fx
     = (if CriticalService s && nonEmpty (ServiceKey (PagerDuty (Alerts config)))
        then 1 else 0)%nat
  /\ (CriticalService s = false -> countEffects isPagerDutyTrigger fx = 0%nat).
Proof.
  intros Hin Hnd fx.
  assert (H : countEffects isSlackAlert fx
    = (if nonEmpty (WebhookURL (Slack (Alerts config))) then 1 else 0)%nat
  /\ countEffects isPagerDutyTrigger fx
     = (if CriticalService s && nonEmpty (ServiceKey (PagerDuty (Alerts config)))
        then 1 else 0)%nat).
  { subst fx. unfold effectsOf, sendAlerts, sendSlackAlert, sendPagerDutyAlert.
    rewrite (findService_unique _ _ Hnd Hin).
    destruct (nonEmpty (WebhookURL (Slack (Alerts config))));
      destruct (CriticalService s && nonEmpty _);
      repeat run_step.
    all: rewrite <- ?app_assoc, drop_app_length; split; reflexivity. }
  destruct H as [H1 H2]. split; [exact H1|]. split; [exact H2|].
  intros Hc. rewrite H2, Hc. reflexivity.
Qed.

(** ** The probe executor *)

(** The tracker adds no request and no sleep, whether it returns or panics. *)
Lemma updateServiceStatus_trace name status errMsg responseTime w :
  exists fx,
    trace (world (updateServiceStatus env config name status errMsg responseTime w))
      = (trace w ++ fx)%list
    /\ forallb (fun e => negb (isProbe e)) fx = true.
Proof.
  destruct (serviceStatus w !! name) as [r|] eqn:Hr.
  - destruct (updateServiceStatus_Done name status errMsg responseTime w r Hr)
      as (w' & fx & E & _ & Ht & _ & Hp).
    exists fx. rewrite E. auto.
  - exists []. unfold updateServiceStatus, bind, deref. rewrite Hr.
    cbn [world]. rewrite app_nil_r. auto.
Qed.

(** When all the attempts fail the loop runs to its end, holding the error
    of the last attempt. *)
Lemma retryLoop_all_fail service startTime n : forall w lastErr,
  (forall i, (i < n)%nat -> failing service (network env (httpCalls w + i)) = true) ->
  retryLoop env config service (requestOf service) startTime n lastErr w =
  retryLoop env config service (requestOf service) startTime O
    (match n with
     | O => lastErr
     | S n' => Some (attemptError (network env (httpCalls w + n')))
     end)
    (afterFailedAttempts service n w).
Proof.
  induction n as [|n IH]; intros w lastErr Hfail.
  - unfold afterFailedAttempts. cbn [replicate concat].
    rewrite app_nil_r, Nat.add_0_r. destruct w; reflexivity.
  - assert (H0 := Hfail O ltac:(lia)). rewrite Nat.add_0_r in H0.
    assert (Hrest : forall i, (i < n)%nat ->
              failing service
                (network env (httpCalls (afterFailedAttempts service 1 w) + i)) = true).
    { intros i Hi. cbn [afterFailedAttempts httpCalls].
      replace (httpCalls w + 1 + i)%nat with (httpCalls w + S i)%nat by lia.
      apply Hfail. lia. }
    cbn [retryLoop]. unfold bind at 1 2, emit at 1, roundTrip.
    cbn [serviceStatus clockReads httpCalls trace].
    assert (E : forall err,
      (emit (Sleep (seconds (RetryDelay service)));;
       retryLoop env config service (requestOf service) startTime n (Some err))
        {| serviceStatus := serviceStatus w; clockReads := clockReads w;
           httpCalls := S (httpCalls w);
           trace := (trace w ++ [ClientDo (requestOf service) (seconds (Timeout service))])%list |}
      = retryLoop env config service (requestOf service) startTime n (Some err)
          (afterFailedAttempts service 1 w)).
    { intros err. unfold bind, emit, afterFailedAttempts.
      cbn [serviceStatus clockReads httpCalls trace replicate concat].
      rewrite app_nil_r, <- app_assoc, Nat.add_1_r. reflexivity. }
    destruct (network env (httpCalls w)) as [err|code] eqn:Hreply.
    + rewrite E, (IH _ _ Hrest), afterFailedAttempts_S.
      destruct n as [|n']; [rewrite Nat.add_0_r, Hreply; reflexivity|].
      cbn [afterFailedAttempts httpCalls].
      replace (httpCalls w + 1 + n')%nat with (httpCalls w + S n')%nat by lia.
      reflexivity.
    + cbn [failing] in H0. apply negb_true_iff in H0. rewrite H0.
      rewrite E, (IH _ _ Hrest), afterFailedAttempts_S.
      destruct n as [|n']; [rewrite Nat.add_0_r, Hreply; reflexivity|].
      cbn [afterFailedAttempts httpCalls].
      replace (httpCalls w + 1 + n')%nat with (httpCalls w + S n')%nat by lia.
      reflexivity.
Qed.

(** The hand-over to the tracker at the end of a probe. *)
Lemma report_trace name status errMsg startTime w :
  exists fx,
    trace (world ((elapsed <- timeSince env startTime ;;
                   updateServiceStatus env config name status errMsg elapsed) w))
      = (trace w ++ fx)%list
    /\ List.filter isProbe fx = [].
Proof.
  unfold timeSince, bind, timeNow, ret. cbv beta iota.
  match goal with
  | |- context [updateServiceStatus env config name status errMsg ?e ?W] =>
      destruct (updateServiceStatus_trace name status errMsg e W) as (fx & Ht & Hp)
  end.
  exists fx. split; [exact Ht|]. apply filter_not_probe, Hp.
Qed.

(** The requests and sleeps of the retry loop, whatever the replies. *)
Lemma retryLoop_probe_effects service startTime n : forall w lastErr,
  exists fx,
    trace (world (retryLoop env config service (requestOf service) startTime n lastErr w))
      = (trace w ++ fx)%list
    /\ List.filter isProbe fx
       = probeEffects service (leadingFailures env service (httpCalls w) n) n.
Proof.
  induction n as [|n IH]; intros w lastErr.
  - cbn [retryLoop leadingFailures]. destruct lastErr as [err|].
    + apply report_trace.
    + exists []. cbn [panic world]. rewrite app_nil_r. auto.
  - cbn [retryLoop leadingFailures]. unfold bind at 1 2, emit at 1, roundTrip.
    cbn [serviceStatus clockReads httpCalls trace].
    assert (E : forall err,
      exists fx,
        trace (world ((emit (Sleep (seconds (RetryDelay service)));;
           retryLoop env config service (requestOf service) startTime n (Some err))
          {| serviceStatus := serviceStatus w; clockReads := clockReads w;
             httpCalls := S (httpCalls w);
             trace := (trace w ++ [ClientDo (requestOf service) (seconds (Timeout service))])%list |}))
        = (trace w ++ fx)%list
        /\ List.filter isProbe fx
           = probeEffects service (S (leadingFailures env service (S (httpCalls w)) n)) (S n)).
    { intros err. unfold bind at 1, emit at 1.
      cbn [serviceStatus clockReads httpCalls trace].
      match goal with
      | |- context [retryLoop _ _ _ _ _ _ _ ?W] =>
          destruct (IH W (Some err)) as (fx & Ht & Hp)
      end.
      cbn [serviceStatus clockReads httpCalls trace] in Ht, Hp.
      exists (failedAttempt service ++ fx)%list. split.
      - rewrite Ht, <- !app_assoc. reflexivity.
      - rewrite filter_probe_app, Hp. unfold probeEffects.
        cbn [replicate concat]. rewrite <- app_assoc. reflexivity. }
    destruct (network env (httpCalls w)) as [err|code]; cbn [failing].
    + apply E.
    + destruct (code =? ExpectedStatus service)%Z; cbn [negb].
      * match goal with
        | |- context [bind ?c ?k ?W] =>
            destruct (report_trace (Name service) true "" startTime W) as (fx & Ht & Hp)
        end.
        cbn [trace] in Ht.
        exists (ClientDo (requestOf service) (seconds (Timeout service)) :: fx).
        split; [rewrite Ht, <- app_assoc; reflexivity|].
        cbn [List.filter isProbe isClientDo orb]. rewrite Hp. reflexivity.
      * apply E.
Qed.

Lemma leadingFailures_all service n : forall h,
  (forall i, (i < n)%nat -> failing service (network env (h + i)) = true) ->
  leadingFailures env service h n = n.
Proof.
  induction n as [|n IH]; intros h Hfail; [reflexivity|].
  cbn [leadingFailures]. assert (H0 := Hfail O ltac:(lia)).
  rewrite Nat.add_0_r in H0. rewrite H0, IH; [reflexivity|].
  intros i Hi. replace (S h + i)%nat with (h + S i)%nat by lia. apply Hfail. lia.
Qed.

(** The requests and sleeps of a whole probe whose request could be built. *)
Lemma checkService_probe_effects service w :
  newRequestError env (Method service) (URL service) = None ->
  List.filter isProbe (effectsOf (checkService env config service) w)
  = probeEffects service
      (leadingFailures env service (httpCalls w) (Z.to_nat (RetryAttempts service)))
      (Z.to_nat (RetryAttempts service)).
Proof.
  intros Hnew. unfold effectsOf, checkService, bind at 1, timeNow.
  rewrite Hnew. fold (requestOf service).
  match goal with
  | |- context [retryLoop _ _ _ _ ?st ?n ?e ?W] =>
      destruct (retryLoop_probe_effects service st n W e) as (fx & Ht & Hp)
  end.
  cbn [serviceStatus clockReads httpCalls trace] in Ht, Hp.
  rewrite Ht, drop_app_length. exact Hp.
Qed.

(** C3.  With [retry_attempts = N >= 1] and every attempt failing, the probe
    hands to the tracker a failure that carries the error of the [N]-th
    attempt, after exactly [N] calls of the network; the whole probe issues
    exactly [N] requests, and a registered service ends Down with that error
    as its last error. *)
Theorem checkService_all_attempts_fail service w (N : nat) :
  RetryAttempts service = Z.of_nat N ->
  (1 <= N)%nat ->
  newRequestError env (Method service) (URL service) = None ->
  (forall i, (i < N)%nat ->
     failing service (network env (httpCalls w + i)) = true) ->
  let lastError := attemptError (network env (httpCalls w + (N - 1))) in
  (exists wmid elapsed,
     checkService env config service w
       = updateServiceStatus env config (Name service) false lastError elapsed wmid
     /\ httpCalls wmid = (httpCalls w + N)%nat
     /\ serviceStatus wmid = serviceStatus w)
  /\ countEffects isClientDo (effectsOf (checkService env config service) w) = N
  /\ (forall r, serviceStatus w !! Name service = Some r ->
        exists r',
          serviceStatus (world (checkService env config service w)) !! Name service
            = Some r'
          /\ ServiceStatus.Status r' = false
          /\ ServiceStatus.LastError r' = lastError).
Proof.
  intros HN Hpos Hnew Hfail lastError.
  assert (Hrun : exists wmid elapsed,
     checkService env config service w
       = updateServiceStatus env config (Name service) false lastError elapsed wmid
     /\ httpCalls wmid = (httpCalls w + N)%nat
     /\ serviceStatus wmid = serviceStatus w).
  { unfold checkService, bind at 1, timeNow. rewrite Hnew, HN, Nat2Z.id.
    fold (requestOf service). rewrite retryLoop_all_fail by exact Hfail.
    destruct N as [|n]; [lia|].
    cbn [retryLoop]. unfold timeSince, bind, timeNow, ret. cbv beta iota.
    cbn [afterFailedAttempts serviceStatus clockReads httpCalls trace].
    subst lastError. replace (S n - 1)%nat with n by lia.
    eexists _, _. split; [reflexivity|]. split; reflexivity. }
  split; [exact Hrun|]. split.
  - rewrite count_requests_probe, checkService_probe_effects by exact Hnew.
    rewrite HN, Nat2Z.id, leadingFailures_all by exact Hfail.
    unfold probeEffects. rewrite Nat.ltb_irrefl, app_nil_r.
    apply count_requests_failed.
  - intros r Hr. destruct Hrun as (wmid & elapsed & E & _ & Hs). rewrite E.
    rewrite <- Hs in Hr.
    destruct (updateServiceStatus_Done (Name service) false lastError
                elapsed wmid r Hr) as (w' & fx & E' & Hs' & _).
    rewrite E'. cbn [world]. rewrite Hs', lookup_insert_eq.
    eexists. split; [reflexivity|].
    rewrite recordAfter_Status, recordAfter_LastError. auto.
Qed.

(** The retry loop takes the tracker in hand only after all its requests
    and sleeps: when it calls [updateServiceStatus] (or panics at line 146) the
    trace holds a request and a sleep for each failed attempt, and the request
    that succeeded if there is one; the outcome it hands over is a success
    exactly when an attempt succeeded. *)
Lemma retryLoop_reports_after_probing service startTime n : forall w lastErr,
  exists wmid,
    trace wmid
      = (trace w ++
         probeEffects service (leadingFailures env service (httpCalls w) n) n)%list
    /\ ((n = O /\ lastErr = None
         /\ retryLoop env config service (requestOf service) startTime n lastErr w
            = Panic nilDereference wmid)
        \/ (exists msg,
              retryLoop env config service (requestOf service) startTime n lastErr w
              = updateServiceStatus env config (Name service)
                  (leadingFailures env service (httpCalls w) n <? n)%nat msg
                  (clock env (clockReads w) - startTime) wmid)).
Proof.
  induction n as [|n IH]; intros w lastErr.
  - cbn [retryLoop leadingFailures]. unfold probeEffects.
    cbn [replicate concat Nat.ltb Nat.leb app]. destruct lastErr as [err|].
    + unfold timeSince, bind, timeNow, ret. cbv beta iota.
      exists {| serviceStatus := serviceStatus w; clockReads := S (clockReads w);
                httpCalls := httpCalls w; trace := trace w |}.
      cbn [trace]. rewrite app_nil_r. split; [reflexivity|].
      right. exists err. reflexivity.
    + exists w. rewrite app_nil_r. split; [reflexivity|]. left. auto.
  - set (W1 := {| serviceStatus := serviceStatus w; clockReads := clockReads w;
                  httpCalls := S (httpCalls w);
                  trace := (trace w ++
                    [ClientDo (requestOf service) (seconds (Timeout service))])%list |}).
    assert (Hrun :
      retryLoop env config service (requestOf service) startTime (S n) lastErr w
      = match network env (httpCalls w) with
        | TransportError err =>
            (emit (Sleep (seconds (RetryDelay service)));;
             retryLoop env config service (requestOf service) startTime n (Some err)) W1
        | Response code =>
            if (code =? ExpectedStatus service)%Z
            then updateServiceStatus env config (Name service) true ""
                   (clock env (clockReads w) - startTime)
                   {| serviceStatus := serviceStatus w; clockReads := S (clockReads w);
                      httpCalls := S (httpCalls w); trace := trace W1 |}
            else (emit (Sleep (seconds (RetryDelay service)));;
                  retryLoop env config service (requestOf service) startTime n
                    (Some ("unexpected status code: " ++ fmt_d code))) W1
        end).
    { cbn [retryLoop]. unfold bind at 1 2, emit at 1, roundTrip.
      cbn [serviceStatus clockReads httpCalls trace]. fold W1.
      destruct (network env (httpCalls w)) as [err|code]; [reflexivity|].
      destruct (code =? ExpectedStatus service)%Z; reflexivity. }
    rewrite Hrun. clear Hrun.
    assert (E : forall err,
      exists wmid,
        trace wmid
          = (trace w ++
             probeEffects service
               (S (leadingFailures env service (S (httpCalls w)) n)) (S n))%list
        /\ exists msg,
             (emit (Sleep (seconds (RetryDelay service)));;
              retryLoop env config service (requestOf service) startTime n (Some err)) W1
             = updateServiceStatus env config (Name service)
                 (S (leadingFailures env service (S (httpCalls w)) n) <? S n)%nat msg
                 (clock env (clockReads w) - startTime) wmid).
    { intros err. unfold bind at 1, emit at 1. subst W1.
      cbn [serviceStatus clockReads httpCalls trace].
      match goal with
      | |- context [retryLoop _ _ _ _ _ _ _ ?W] =>
          destruct (IH W (Some err)) as (wmid & Ht & Hend)
      end.
      cbn [serviceStatus clockReads httpCalls trace] in Ht, Hend.
      exists wmid. split.
      - rewrite Ht. unfold probeEffects. cbn [replicate concat failedAttempt].
        change (S (leadingFailures env service (S (httpCalls w)) n) <? S n)%nat
          with (leadingFailures env service (S (httpCalls w)) n <? n)%nat.
        rewrite <- !app_assoc. reflexivity.
      - destruct Hend as [(_ & Hnone & _)|(msg & Hupd)]; [discriminate|].
        exists msg. exact Hupd. }
    cbn [leadingFailures].
    destruct (network env (httpCalls w)) as [err|code]; cbn [failing].
    + destruct (E err) as (wmid & Ht & msg & Hupd).
      exists wmid. split; [exact Ht|]. right. exists msg. exact Hupd.
    + destruct (code =? ExpectedStatus service)%Z; cbn [negb].
      * eexists. split; [|right; exists ""; reflexivity]. reflexivity.
      * destruct (E ("unexpected status code: " ++ fmt_d code))
          as (wmid & Ht & msg & Hupd).
        exists wmid. split; [exact Ht|]. right. exists msg. exact Hupd.
Qed.

(** C4 (amended).  After every failed attempt, the last one included, the
    probe sleeps [retry_delay] before it goes on, to the next attempt or to
    reporting its outcome: when the probe calls [updateServiceStatus] (or
    panics at line 146), the trace already holds a request and a sleep for
    each failed attempt, followed by the request that succeeded if there is
    one; what comes after in the trace of the probe is neither a request nor a
    sleep; and the probe sleeps as many times as attempts fail. *)
Theorem checkService_sleeps_after_every_failure service w :
  newRequestError env (Method service) (URL service) = None ->
  let N := Z.to_nat (RetryAttempts service) in
  let failed := leadingFailures env service (httpCalls w) N in
  (exists wmid,
     trace wmid = (trace w ++ probeEffects service failed N)%list
     /\ ((N = O /\ checkService env config service w = Panic nilDereference wmid)
         \/ (exists msg,
               checkService env config service w
               = updateServiceStatus env config (Name service) (failed <? N)%nat msg
                   (clock env (S (clockReads w)) - clock env (clockReads w)) wmid)))
  /\ (exists tracked,
        effectsOf (checkService env config service) w
          = (probeEffects service failed N ++ tracked)%list
        /\ forallb (fun e => negb (isProbe e)) tracked = true)
  /\ countEffects isSleep (effectsOf (checkService env config service) w) = failed.
Proof.
  intros Hnew N failed.
  assert (Hrun : checkService env config service w
    = retryLoop env config service (requestOf service) (clock env (clockReads w)) N None
        {| serviceStatus := serviceStatus w; clockReads := S (clockReads w);
           httpCalls := httpCalls w; trace := trace w |}).
  { unfold checkService, bind, timeNow. rewrite Hnew. reflexivity. }
  destruct (retryLoop_reports_after_probing service (clock env (clockReads w)) N
              {| serviceStatus := serviceStatus w; clockReads := S (clockReads w);
                 httpCalls := httpCalls w; trace := trace w |} None)
    as (wmid & Ht & Hend).
  cbn [serviceStatus clockReads httpCalls trace] in Ht, Hend. fold failed in Ht, Hend.
  rewrite <- Hrun in Hend.
  split; [|split].
  - exists wmid. split; [exact Ht|].
    destruct Hend as [(Hn & _ & Hpanic)|(msg & Hupd)].
    + left. auto.
    + right. exists msg. exact Hupd.
  - destruct Hend as [(_ & _ & Hpanic)|(msg & Hupd)].
    + exists []. split; [|reflexivity]. apply effectsOf_app.
      rewrite Hpanic. cbn [world]. rewrite Ht, app_nil_r. reflexivity.
    + destruct (updateServiceStatus_trace (Name service) (failed <? N)%nat msg
                  (clock env (S (clockReads w)) - clock env (clockReads w)) wmid)
        as (fx & Hfx & Hp).
      exists fx. split; [|exact Hp]. apply effectsOf_app.
      rewrite Hupd, Hfx, Ht, <- app_assoc. reflexivity.
  - rewrite count_sleeps_probe, checkService_probe_effects by exact Hnew.
    fold N. fold failed. unfold probeEffects, countEffects.
    rewrite List.filter_app, length_app.
    change (length (List.filter isSleep (concat (replicate failed (failedAttempt service)))))
      with (countEffects isSleep (concat (replicate failed (failedAttempt service)))).
    rewrite count_sleeps_failed. destruct (failed <? N)%nat; cbn; lia.
Qed.

(** C5.  With [retry_attempts = 0] the loop body never runs, no request is
    issued, and line 146 dereferences the nil [lastErr]: the probe panics. *)
Theorem checkService_zero_retries_panics service w :
  RetryAttempts service = 0 ->
  newRequestError env (Method service) (URL service) = None ->
  checkService env config service w
  = Panic nilDereference
      {| serviceStatus := serviceStatus w; clockReads := S (clockReads w);
         httpCalls := httpCalls w; trace := trace w |}.
Proof.
  intros H0 Hnew. unfold checkService, bind, timeNow. rewrite Hnew, H0.
  reflexivity.
Qed.

(** C10.  When [http.NewRequest] fails, the probe hands the construction
    error to [updateServiceStatus] as a failure, having read the clock twice
    and called the network not at all, whatever the retry count: no request
    and no sleep is in its trace.  For a registered service the failure is
    recorded by the transition of the tracker: the probe returns, the record
    is Down with the construction error as its last error, one more failure
    counted, the latency and the time of the check stored, and the tracker
    raises the event of that transition, an outage start when the record was
    Up with its alert flag clear and nothing otherwise. *)
Theorem checkService_request_construction_fails service w err :
  newRequestError env (Method service) (URL service) = Some err ->
  checkService env config service w
    = updateServiceStatus env config (Name service) false err
        (clock env (S (clockReads w)) - clock env (clockReads w))
        {| serviceStatus := serviceStatus w; clockReads := S (S (clockReads w));
           httpCalls := httpCalls w; trace := trace w |}
  /\ countEffects isClientDo (effectsOf (checkService env config service) w) = O
  /\ List.filter isProbe (effectsOf (checkService env config service) w) = []
  /\ (forall r, serviceStatus w !! Name service = Some r ->
        exists w' r',
          checkService env config service w = Done tt w'
          /\ serviceStatus w' !! Name service = Some r'
          /\ ServiceStatus.Status r' = false
          /\ ServiceStatus.LastError r' = err
          /\ ServiceStatus.FailureCount r' = wrap64 (ServiceStatus.FailureCount r + 1)
          /\ ServiceStatus.ResponseTime r'
             = clock env (S (clockReads w)) - clock env (clockReads w)
          /\ ServiceStatus.LastCheck r' = clock env (S (S (clockReads w)))
          /\ trackerEvents (Name service) (effectsOf (checkService env config service) w)
             = (if ServiceStatus.Status r && negb (ServiceStatus.AlertSent r)
                then [EvOutageStarted] else [])).
Proof.
  intros Hnew.
  assert (E : checkService env config service w
    = updateServiceStatus env config (Name service) false err
        (clock env (S (clockReads w)) - clock env (clockReads w))
        {| serviceStatus := serviceStatus w; clockReads := S (S (clockReads w));
           httpCalls := httpCalls w; trace := trace w |}).
  { unfold checkService, timeSince, bind, timeNow, ret. rewrite Hnew. reflexivity. }
  assert (Hprobe : List.filter isProbe (effectsOf (checkService env config service) w) = []).
  { unfold effectsOf. rewrite E.
    match goal with
    | |- context [updateServiceStatus _ _ ?n ?s ?e ?rt ?W] =>
        destruct (updateServiceStatus_trace n s e rt W) as (fx & Ht & Hp)
    end.
    cbn [trace] in Ht. rewrite Ht, drop_app_length.
    apply filter_not_probe, Hp. }
  split; [exact E|]. split; [|split; [exact Hprobe|]].
  - rewrite count_requests_probe, Hprobe. reflexivity.
  - intros r Hr.
    destruct (updateServiceStatus_Done (Name service) false err
                (clock env (S (clockReads w)) - clock env (clockReads w))
                {| serviceStatus := serviceStatus w; clockReads := S (S (clockReads w));
                   httpCalls := httpCalls w; trace := trace w |} r Hr)
      as (w' & fx & E' & Hs' & Ht' & Hev & _).
    cbn [serviceStatus clockReads httpCalls trace] in Hs', Ht'.
    eexists w', _. split; [rewrite E; exact E'|].
    rewrite Hs'. split; [apply lookup_insert_eq|].
    rewrite (effectsOf_app _ w fx) by (rewrite E, E'; exact Ht').
    rewrite Hev. unfold recordAfter, eventOfStep. cbn [negb].
    cbn [ServiceStatus.Status ServiceStatus.LastError ServiceStatus.FailureCount
         ServiceStatus.ResponseTime ServiceStatus.LastCheck].
    repeat split.
Qed.

End Facts.

(** ** The properties on the samples *)

(** Start-up registers both services, Up, at the time of its clock readings. *)
Example startWorld_records :
  serviceStatus startWorld !! "api" = Some (ServiceStatus.initial "api" 0)
  /\ serviceStatus startWorld !! "web" = Some (ServiceStatus.initial "web" Second)
  /\ serviceStatus startWorld !! "db" = None.
Proof. vm_compute. auto. Qed.

(** C1 on [sampleOutcomes]. *)
Lemma tracker_one_event_per_transition_witness :
  let evs := trackerEvents "api"
    (effectsOf (applyOutcomes sampleEnv sampleConfig "api" sampleOutcomes) startWorld) in
  (exists w', applyOutcomes sampleEnv sampleConfig "api" sampleOutcomes startWorld
              = Done tt w')
  /\ countEvents isOutageStarted evs = failureRuns (map success sampleOutcomes)
  /\ countEvents isRecovered evs = downToUpTransitions (map success sampleOutcomes)
  /\ alternates false evs = true.
Proof.
  apply (tracker_one_event_per_transition sampleEnv sampleConfig "api" 0
           sampleOutcomes startWorld).
  vm_compute. reflexivity.
Defined.

(** Two outages in [sampleOutcomes], each opened once and closed once. *)
Example sampleOutcomes_events :
  trackerEvents "api"
    (effectsOf (applyOutcomes sampleEnv sampleConfig "api" sampleOutcomes) startWorld)
  = [EvOutageStarted; EvRecovered; EvOutageStarted; EvRecovered]
  /\ failureRuns (map success sampleOutcomes) = 2%nat
  /\ downToUpTransitions (map success sampleOutcomes) = 2%nat.
Proof. vm_compute. auto. Qed.

(** C2.  The service goes Down at 100 s and comes back at 160 s; the recovery
    message carries a downtime of 0, the time between the clock readings of
    lines 170 and 234, and not the 60 s of the outage. *)
Theorem recovery_downtime_ignores_outage_start :
  (exists r,
     serviceStatus (world (applyOutcomes outageEnv sampleConfig "api"
                             [failed "boom"] outageStart)) !! "api" = Some r
     /\ ServiceStatus.Status r = false
     /\ ServiceStatus.LastCheck r = 100 * Second)
  /\ effectsOf (applyOutcomes outageEnv sampleConfig "api" [failed "boom"; succeeded])
       outageStart
     = [OutageStarted "api" "boom";
        SlackAlert "https://hooks.example/T0" "api" "boom" (100 * Second);
        PagerDutyTrigger "pd-key" "pd-api" "api" "boom" 100;
        Recovered "api";
        SlackRecovery "https://hooks.example/T0" "api" 0 (160 * Second);
        PagerDutyResolve "pd-key" "api"].
Proof.
  split.
  - eexists. split; [vm_compute; reflexivity|]. split; reflexivity.
  - vm_compute. reflexivity.
Qed.

(** C4 (counterexample).  One attempt, the last one, which fails: the probe
    sleeps [retry_delay] after it all the same, before it reports the failure.
    The sleep is in the trace when [updateServiceStatus] is called, and in
    the trace of the whole probe it stands before the outage that the tracker
    hands to the dispatcher. *)
Lemma sleep_after_last_attempt :
  checkService sampleEnv sampleConfig (sampleService "web" 1 false) startWorld
  = updateServiceStatus sampleEnv sampleConfig "web" false
      "unexpected status code: 500" (1 * Second)
      {| serviceStatus := serviceStatus startWorld; clockReads := 4; httpCalls := 1;
         trace := [ClientDo (requestOf (sampleService "web" 1 false)) (5 * Second);
                   Sleep (1 * Second)] |}
  /\ effectsOf (checkService sampleEnv sampleConfig (sampleService "web" 1 false))
       startWorld
     = [ClientDo (requestOf (sampleService "web" 1 false)) (5 * Second);
        Sleep (1 * Second);
        OutageStarted "web" "unexpected status code: 500";
        SlackAlert "https://hooks.example/T0" "web" "unexpected status code: 500"
          (5 * Second)].
Proof. split; vm_compute; reflexivity. Qed.

(** C6 (counterexample).  After a failure and a success the record is Up and
    its last error is still that of the failure. *)
Lemma lastError_survives_recovery :
  exists r,
    serviceStatus (world (applyOutcomes sampleEnv sampleConfig "api"
                            [failed "boom"; succeeded] startWorld)) !! "api" = Some r
    /\ ServiceStatus.Status r = true
    /\ ServiceStatus.LastError r = "boom"
    /\ ServiceStatus.LastError r <> "".
Proof.
  eexists. split; [vm_compute; reflexivity|].
  split; [reflexivity|]. split; [reflexivity|]. discriminate.
Qed.

(** C6 (amended) on [sampleOutcomes]. *)
Lemma lastError_is_last_failure_witness :
  exists w' r',
    applyOutcomes sampleEnv sampleConfig "api" sampleOutcomes startWorld = Done tt w'
    /\ serviceStatus w' !! "api" = Some r'
    /\ ServiceStatus.LastError r' = lastFailureText "" sampleOutcomes
    /\ (forallb success sampleOutcomes = true -> ServiceStatus.LastError r' = "").
Proof.
  apply (lastError_is_last_failure sampleEnv sampleConfig "api" 0 sampleOutcomes
           startWorld).
  vm_compute. reflexivity.
Defined.

(** C8 on [sampleOutcomes]. *)
Lemma alertSent_only_while_down_witness :
  exists w' r',
    applyOutcomes sampleEnv sampleConfig "api" sampleOutcomes startWorld = Done tt w'
    /\ serviceStatus w' !! "api" = Some r'
    /\ (ServiceStatus.AlertSent r' = true -> ServiceStatus.Status r' = false)
    /\ (outagesSinceRecovery 0
          (trackerEvents "api"
             (effectsOf (applyOutcomes sampleEnv sampleConfig "api" sampleOutcomes)
                startWorld))
        <= 1)%nat.
Proof.
  apply (alertSent_only_while_down sampleEnv sampleConfig "api" 0 sampleOutcomes
           startWorld).
  vm_compute. reflexivity.
Defined.

(** C9: a second failure in a row takes the count from 1 to 2. *)
Lemma failureCount_follows_down_run_witness :
  exists w1 r1 w2 r2,
    applyOutcomes sampleEnv sampleConfig "api" [succeeded; failed "timeout"] startWorld
      = Done tt w1
    /\ serviceStatus w1 !! "api" = Some r1
    /\ updateServiceStatus sampleEnv sampleConfig "api" false "refused" (3 * Second) w1
       = Done tt w2
    /\ serviceStatus w2 !! "api" = Some r2
    /\ (ServiceStatus.Status r1 = true -> ServiceStatus.FailureCount r1 = 0)
    /\ (ServiceStatus.Status r1 = false -> 0 < ServiceStatus.FailureCount r1)
    /\ (false = false ->
        ServiceStatus.FailureCount r2 = ServiceStatus.FailureCount r1 + 1)
    /\ (false = true -> ServiceStatus.FailureCount r2 = 0).
Proof.
  apply (failureCount_follows_down_run sampleEnv sampleConfig "api" 0
           [succeeded; failed "timeout"] (failed "refused") startWorld).
  - vm_compute. reflexivity.
  - vm_compute. reflexivity.
Defined.

(** C7 on the service that is not critical: a chat message, no paging call,
    with both backends configured. *)
Lemma sendAlerts_criticality_policy_witness :
  let fx := effectsOf (sendAlerts sampleEnv sampleConfig "web" "refused") startWorld in
  countEffects isSlackAlert fx = 1%nat
  /\ countEffects isPagerDutyTrigger fx = 0%nat
  /\ (false = false -> countEffects isPagerDutyTrigger fx = 0%nat).
Proof.
  apply (sendAlerts_criticality_policy sampleEnv sampleConfig
           (sampleService "web" 1 false) "refused" startWorld).
  - simpl. auto.
  - simpl. apply (bool_decide_unpack _). vm_compute. reflexivity.
Defined.

(** C3: three attempts that all meet status 500. *)
Lemma checkService_all_attempts_fail_witness :
  let service := sampleService "api" 3 true in
  let lastError := "unexpected status code: 500" in
  (exists wmid elapsed,
     checkService sampleEnv sampleConfig service startWorld
       = updateServiceStatus sampleEnv sampleConfig "api" false lastError elapsed wmid
     /\ httpCalls wmid = (httpCalls startWorld + 3)%nat
     /\ serviceStatus wmid = serviceStatus startWorld)
  /\ countEffects isClientDo
       (effectsOf (checkService sampleEnv sampleConfig service) startWorld) = 3%nat
  /\ (forall r, serviceStatus startWorld !! "api" = Some r ->
        exists r',
          serviceStatus (world (checkService sampleEnv sampleConfig service startWorld))
            !! "api" = Some r'
          /\ ServiceStatus.Status r' = false
          /\ ServiceStatus.LastError r' = lastError).
Proof.
  apply (checkService_all_attempts_fail sampleEnv sampleConfig
           (sampleService "api" 3 true) startWorld 3).
  - reflexivity.
  - lia.
  - reflexivity.
  - intros i _. reflexivity.
Defined.

(** C4 (amended): three failed attempts, three sleeps, all before the
    failure is reported. *)
Lemma checkService_sleeps_after_every_failure_witness :
  let service := sampleService "api" 3 true in
  (exists wmid,
     trace wmid = (trace startWorld ++ probeEffects service 3 3)%list
     /\ ((3%nat = O
          /\ checkService sampleEnv sampleConfig service startWorld
             = Panic nilDereference wmid)
         \/ (exists msg,
               checkService sampleEnv sampleConfig service startWorld
               = updateServiceStatus sampleEnv sampleConfig "api" false msg
                   (clock sampleEnv (S (clockReads startWorld))
                    - clock sampleEnv (clockReads startWorld)) wmid)))
  /\ (exists tracked,
        effectsOf (checkService sampleEnv sampleConfig service) startWorld
          = (probeEffects service 3 3 ++ tracked)%list
        /\ forallb (fun e => negb (isProbe e)) tracked = true)
  /\ countEffects isSleep
       (effectsOf (checkService sampleEnv sampleConfig service) startWorld) = 3%nat.
Proof.
  apply (checkService_sleeps_after_every_failure sampleEnv sampleConfig
           (sampleService "api" 3 true) startWorld).
  reflexivity.
Defined.

(** C5 on a service with no attempt configured. *)
Lemma checkService_zero_retries_panics_witness :
  checkService sampleEnv sampleConfig (sampleService "api" 0 true) startWorld
  = Panic nilDereference
      {| serviceStatus := serviceStatus startWorld;
         clockReads := S (clockReads startWorld);
         httpCalls := httpCalls startWorld; trace := trace startWorld |}.
Proof.
  apply (checkService_zero_retries_panics sampleEnv sampleConfig
           (sampleService "api" 0 true) startWorld).
  - reflexivity.
  - reflexivity.
Defined.

(** C10 on a service whose method [http.NewRequest] rejects. *)
Lemma checkService_request_construction_fails_witness :
  let service :=
    {| Name := "api"; URL := "https://api.example.com/health"; Method := "BAD METHOD";
       Headers := ∅; ExpectedStatus := 200; Timeout := 5; CheckInterval := 30;
       RetryAttempts := 3; RetryDelay := 1; CriticalService := true |} in
  checkService sampleEnv sampleConfig service startWorld
    = updateServiceStatus sampleEnv sampleConfig "api" false "net/http: invalid method"
        (clock sampleEnv (S (clockReads startWorld))
         - clock sampleEnv (clockReads startWorld))
        {| serviceStatus := serviceStatus startWorld;
           clockReads := S (S (clockReads startWorld));
           httpCalls := httpCalls startWorld; trace := trace startWorld |}
  /\ countEffects isClientDo
       (effectsOf (checkService sampleEnv sampleConfig service) startWorld) = O
  /\ List.filter isProbe
       (effectsOf (checkService sampleEnv sampleConfig service) startWorld) = []
  /\ (forall r, serviceStatus startWorld !! "api" = Some r ->
        exists w' r',
          checkService sampleEnv sampleConfig service startWorld = Done tt w'
          /\ serviceStatus w' !! "api" = Some r'
          /\ ServiceStatus.Status r' = false
          /\ ServiceStatus.LastError r' = "net/http: invalid method"
          /\ ServiceStatus.FailureCount r' = wrap64 (ServiceStatus.FailureCount r + 1)
          /\ ServiceStatus.ResponseTime r'
             = clock sampleEnv (S (clockReads startWorld))
               - clock sampleEnv (clockReads startWorld)
          /\ ServiceStatus.LastCheck r'
             = clock sampleEnv (S (S (clockReads startWorld)))
          /\ trackerEvents "api"
               (effectsOf (checkService sampleEnv sampleConfig service) startWorld)
             = (if ServiceStatus.Status r && negb (ServiceStatus.AlertSent r)
                then [EvOutageStarted] else [])).
Proof.
  apply (checkService_request_construction_fails sampleEnv sampleConfig
           {| Name := "api"; URL := "https://api.example.com/health";
              Method := "BAD METHOD"; Headers := ∅; ExpectedStatus := 200;
              Timeout := 5; CheckInterval := 30; RetryAttempts := 3;
              RetryDelay := 1; CriticalService := true |} startWorld).
  reflexivity.
Defined.

(** The same probe, run: no attempt, [api] Down with the construction error,
    one outage handed to the dispatcher. *)
Example construction_failure_recorded :
  let service :=
    {| Name := "api"; URL := "https://api.example.com/health"; Method := "BAD METHOD";
       Headers := ∅; ExpectedStatus := 200; Timeout := 5; CheckInterval := 30;
       RetryAttempts := 3; RetryDelay := 1; CriticalService := true |} in
  serviceStatus (world (checkService sampleEnv sampleConfig service startWorld)) !! "api"
    = Some (ServiceStatus.mk "api" false (4 * Second) "net/http: invalid method" 1
              (1 * Second) true None)
  /\ trackerEvents "api"
       (effectsOf (checkService sampleEnv sampleConfig service) startWorld)
     = [EvOutageStarted]
  /\ httpCalls (world (checkService sampleEnv sampleConfig service startWorld)) = 2%nat.
Proof. vm_compute. auto. Qed.

(** * Further properties of the engine *)

Section MoreFacts.

Variable env : Env.
Variable config : MonitorConfig.

(** ** Start-up *)

Lemma initServiceStatus_spec services : forall w,
  exists w',
    initServiceStatus env services w = Done tt w'
    /\ clockReads w' = (clockReads w + length services)%nat
    /\ httpCalls w' = httpCalls w
    /\ trace w' = trace w
    /\ (forall name, In name (map Name services) ->
          exists i, (i < length services)%nat
            /\ serviceStatus w' !! name
               = Some (ServiceStatus.initial name (clock env (clockReads w + i))))
    /\ (forall name, ~ In name (map Name services) ->
          serviceStatus w' !! name = serviceStatus w !! name).
Proof.
  induction services as [|a rest IH]; intros w.
  - exists w. cbn [initServiceStatus ret length map]. rewrite Nat.add_0_r.
    repeat split; auto. intros name [].
  - cbn [initServiceStatus]. unfold bind at 1 2, timeNow, store.
    cbn [serviceStatus clockReads httpCalls trace].
    match goal with
    | |- context [initServiceStatus env rest ?W] =>
        destruct (IH W) as (w' & E & Hc & Hh & Ht & Hin & Hout)
    end.
    cbn [serviceStatus clockReads httpCalls trace] in Hc, Hh, Ht, Hin, Hout.
    exists w'. split; [exact E|]. cbn [length map].
    split; [lia|]. split; [exact Hh|]. split; [exact Ht|]. split.
    + intros name Hname.
      destruct (List.in_dec String.string_dec name (map Name rest)) as [Hr|Hr].
      * destruct (Hin name Hr) as (i & Hi & Hl). exists (S i). split; [lia|].
        rewrite Hl. replace (clockReads w + S i)%nat with (S (clockReads w) + i)%nat by lia.
        reflexivity.
      * destruct Hname as [<-|Hname]; [|contradiction].
        exists O. split; [lia|]. rewrite (Hout _ Hr), lookup_insert_eq, Nat.add_0_r.
        reflexivity.
    + intros name Hname.
      assert (Ha : Name a <> name) by (intros Heq; apply Hname; left; exact Heq).
      assert (Hr : ~ In name (map Name rest)) by (intros Hr; apply Hname; right; exact Hr).
      rewrite (Hout name Hr). apply lookup_insert_ne, Ha.
Qed.

(** X1.  Start-up returns with a record for each configured service and for
    no other name; each record is Up with no error, no failure counted, no
    alert sent and no recovery time, stamped with one of the clock readings
    of start-up; one reading is taken per service and nothing reaches the
    outside. *)
Theorem NewMonitor_registers_services :
  exists w',
    NewMonitor env config = Done tt w'
    /\ clockReads w' = length (Services config)
    /\ httpCalls w' = O
    /\ trace w' = []
    /\ (forall s, In s (Services config) ->
          exists i, (i < length (Services config))%nat
            /\ serviceStatus w' !! Name s
               = Some (ServiceStatus.initial (Name s) (clock env i)))
    /\ (forall name, ~ In name (map Name (Services config)) ->
          serviceStatus w' !! name = None).
Proof.
  unfold NewMonitor.
  destruct (initServiceStatus_spec (Services config) emptyWorld)
    as (w' & E & Hc & Hh & Ht & Hin & Hout).
  exists w'. split; [exact E|]. split; [exact Hc|]. split; [exact Hh|].
  split; [exact Ht|]. split.
  - intros s Hs. apply (Hin (Name s)), in_map, Hs.
  - intros name Hname. rewrite (Hout name Hname). apply lookup_empty.
Qed.

(** ** More on the tracker *)

Lemma recordAfter_LastCheck r s e rt now rec :
  ServiceStatus.LastCheck (recordAfter r s e rt now rec) = now.
Proof. unfold recordAfter. destruct s, (ServiceStatus.Status r); reflexivity. Qed.

Lemma recordAfter_ResponseTime r s e rt now rec :
  ServiceStatus.ResponseTime (recordAfter r s e rt now rec) = rt.
Proof. unfold recordAfter. destruct s, (ServiceStatus.Status r); reflexivity. Qed.

Lemma recordAfter_Name r s e rt now rec :
  ServiceStatus.Name (recordAfter r s e rt now rec) = ServiceStatus.Name r.
Proof. unfold recordAfter. destruct s, (ServiceStatus.Status r); reflexivity. Qed.

(** X2.  Whatever the outcome and whether or not an event is raised, a step
    of the tracker on a registered service stores the health, the time of the
    check (the first clock reading of the step) and the latency, keeps the
    name, and leaves the records of the other services as they were. *)
Theorem updateServiceStatus_stamps_every_outcome name status errMsg responseTime w r :
  serviceStatus w !! name = Some r ->
  exists w' r',
    updateServiceStatus env config name status errMsg responseTime w = Done tt w'
    /\ serviceStatus w' !! name = Some r'
    /\ ServiceStatus.Status r' = status
    /\ ServiceStatus.LastCheck r' = clock env (clockReads w)
    /\ ServiceStatus.ResponseTime r' = responseTime
    /\ ServiceStatus.Name r' = ServiceStatus.Name r
    /\ (forall other, other <> name ->
          serviceStatus w' !! other = serviceStatus w !! other).
Proof.
  intros Hr.
  destruct (updateServiceStatus_Done env config name status errMsg responseTime w r Hr)
    as (w' & fx & E & Hs & _).
  eexists w', _. split; [exact E|]. rewrite Hs.
  split; [apply lookup_insert_eq|].
  rewrite recordAfter_Status, recordAfter_LastCheck, recordAfter_ResponseTime,
    recordAfter_Name.
  repeat split. intros other Hne. apply lookup_insert_ne. congruence.
Qed.

(** X3.  A step that does not change the health (Up on a success, Down on a
    failure) reaches nothing outside: nothing is added to the trace and the
    network is not called; the alert flag and the recovery time stay, and the
    failure count stays on a success and grows by one on a failure. *)
Theorem updateServiceStatus_steady_state name status errMsg responseTime w r :
  serviceStatus w !! name = Some r ->
  ServiceStatus.Status r = status ->
  exists w' r',
    updateServiceStatus env config name status errMsg responseTime w = Done tt w'
    /\ trace w' = trace w
    /\ httpCalls w' = httpCalls w
    /\ clockReads w' = S (clockReads w)
    /\ serviceStatus w' !! name = Some r'
    /\ ServiceStatus.AlertSent r' = ServiceStatus.AlertSent r
    /\ ServiceStatus.RecoveryTime r' = ServiceStatus.RecoveryTime r
    /\ ServiceStatus.FailureCount r'
       = (if status then ServiceStatus.FailureCount r
          else wrap64 (ServiceStatus.FailureCount r + 1)).
Proof.
  intros Hr Hst. unfold updateServiceStatus.
  destruct r as [n st lc le fc rt al rec]. cbn in Hst. subst st.
  destruct status; cbn [negb andb orb ServiceStatus.Status ServiceStatus.AlertSent].
  all: unfold deref, assign, bind, timeNow, ret.
  all: repeat (cbn [serviceStatus clockReads httpCalls trace negb andb orb
                   ServiceStatus.Status ServiceStatus.AlertSent
                   ServiceStatus.set_Status ServiceStatus.set_LastCheck
                   ServiceStatus.set_ResponseTime ServiceStatus.set_LastError
                   ServiceStatus.set_FailureCount ServiceStatus.Name
                   ServiceStatus.LastCheck ServiceStatus.LastError
                   ServiceStatus.FailureCount ServiceStatus.ResponseTime
                   ServiceStatus.RecoveryTime];
               rewrite ?Hr, ?lookup_insert_eq).
  all: eexists _, _; split; [reflexivity|];
    cbn [serviceStatus clockReads httpCalls trace];
    rewrite lookup_insert_eq; repeat split.
Qed.

Lemma count_recoveryNotices service duration now :
  countEffects isSlackRecovery (recoveryNotices config service duration now)
    = (if nonEmpty (WebhookURL (Slack (Alerts config))) then 1 else 0)%nat
  /\ countEffects isPagerDutyResolve (recoveryNotices config service duration now)
     = (if nonEmpty (ServiceKey (PagerDuty (Alerts config))) then 1 else 0)%nat
  /\ countEffects isPagerDutyTrigger (recoveryNotices config service duration now) = O
  /\ countEffects isSlackAlert (recoveryNotices config service duration now) = O.
Proof.
  unfold recoveryNotices.
  destruct (nonEmpty (WebhookURL _)); destruct (nonEmpty (ServiceKey _));
    repeat split; reflexivity.
Qed.

(** X4.  When a success comes to a Down record, the record gets the second
    clock reading of the step as its recovery time, a failure count of 0 and
    a cleared alert flag; one recovery message goes to the chat webhook if
    and only if its URL is set and one resolve call to the paging backend if
    and only if its key is set, whatever the criticality of the service; no
    outage message and no trigger is sent. *)
Theorem updateServiceStatus_recovery_dispatch name errMsg responseTime w r :
  serviceStatus w !! name = Some r ->
  ServiceStatus.Status r = false ->
  let fx := effectsOf (updateServiceStatus env config name true errMsg responseTime) w in
  exists w' r',
    updateServiceStatus env config name true errMsg responseTime w = Done tt w'
    /\ serviceStatus w' !! name = Some r'
    /\ ServiceStatus.RecoveryTime r' = Some (clock env (S (clockReads w)))
    /\ ServiceStatus.FailureCount r' = 0
    /\ ServiceStatus.AlertSent r' = false
    /\ countEffects isSlackRecovery fx
       = (if nonEmpty (WebhookURL (Slack (Alerts config))) then 1 else 0)%nat
    /\ countEffects isPagerDutyResolve fx
       = (if nonEmpty (ServiceKey (PagerDuty (Alerts config))) then 1 else 0)%nat
    /\ countEffects isPagerDutyTrigger fx = O
    /\ countEffects isSlackAlert fx = O.
Proof.
  intros Hr Hst fx.
  destruct (updateServiceStatus_Done env config name true errMsg responseTime w r Hr)
    as (w' & fx' & E & Hs & _).
  destruct (updateServiceStatus_recovery env config name errMsg responseTime w r Hr Hst)
    as (w2 & E2 & Ht).
  rewrite E in E2. injection E2 as <-.
  assert (Hfx : fx = Recovered name ::
            recoveryNotices config name
              (clock env (S (S (clockReads w))) - clock env (S (clockReads w)))
              (clock env (S (S (S (clockReads w)))))).
  { subst fx. apply effectsOf_app. rewrite E. exact Ht. }
  eexists w', _. split; [exact E|]. rewrite Hs.
  split; [apply lookup_insert_eq|].
  unfold recordAfter. rewrite Hst.
  cbn [negb ServiceStatus.RecoveryTime ServiceStatus.FailureCount ServiceStatus.AlertSent].
  split; [reflexivity|]. split; [reflexivity|]. split; [reflexivity|].
  rewrite Hfx. unfold countEffects.
  cbn [List.filter isSlackRecovery isPagerDutyResolve isPagerDutyTrigger isSlackAlert].
  apply count_recoveryNotices.
Qed.

(** ** More on the dispatcher *)

(** What [sendAlerts] does, in terms of the service that the lookup of lines
    260-266 finds. *)
Lemma sendAlerts_dispatch service message w :
  let fx := effectsOf (sendAlerts env config service message) w in
  exists w',
    sendAlerts env config service message w = Done tt w'
    /\ serviceStatus w' = serviceStatus w
    /\ httpCalls w' = (httpCalls w + backendsCalled config service)%nat
    /\ clockReads w' = (clockReads w + backendsCalled config service)%nat
    /\ countEffects isSlackAlert fx
       = (if nonEmpty (WebhookURL (Slack (Alerts config))) then 1 else 0)%nat
    /\ countEffects isPagerDutyTrigger fx
       = (if CriticalService (findService (Services config) service)
             && nonEmpty (ServiceKey (PagerDuty (Alerts config)))
          then 1 else 0)%nat
    /\ countEffects isLogPrintf fx
       = countBelow (fun i => isTransportError (network env (httpCalls w + i)))
           (backendsCalled config service).
Proof.
  unfold effectsOf, sendAlerts, sendSlackAlert, sendPagerDutyAlert, backendsCalled.
  destruct (nonEmpty (WebhookURL (Slack (Alerts config))));
    destruct (CriticalService _ && nonEmpty _);
    cbn [Nat.add countBelow]; rewrite ?Nat.add_0_r, ?Nat.add_1_r;
    repeat run_step.
  all: eexists; (split; [reflexivity|]);
    cbn [serviceStatus clockReads httpCalls trace isTransportError Nat.add];
    rewrite <- ?app_assoc, drop_app_length, ?Nat.add_0_r;
    repeat split; lia.
Qed.

Lemma findService_absent services name :
  ~ In name (map Name services) -> findService services name = zeroServiceConfig.
Proof.
  induction services as [|a rest IH]; intros Hn; [reflexivity|].
  cbn [findService]. destruct (String.eqb_spec (Name a) name) as [Heq|_].
  - exfalso. apply Hn. left. exact Heq.
  - apply IH. intros Hr. apply Hn. right. exact Hr.
Qed.

Lemma findService_first pre s post :
  ~ In (Name s) (map Name pre) -> findService (pre ++ s :: post) (Name s) = s.
Proof.
  induction pre as [|a pre IH]; intros Hn.
  - cbn [app findService]. rewrite String.eqb_refl. reflexivity.
  - cbn [app findService]. destruct (String.eqb_spec (Name a) (Name s)) as [Heq|_].
    + exfalso. apply Hn. left. exact Heq.
    + apply IH. intros Hr. apply Hn. right. exact Hr.
Qed.


(** X6.  For a name that no configured service bears, the lookup of lines
    260-266 leaves the zero value: the outage still goes to the chat webhook
    if its URL is set, and never to the paging backend. *)
Theorem sendAlerts_unknown_service_never_pages service message w :
  ~ In service (map Name (Services config)) ->
  let fx := effectsOf (sendAlerts env config service message) w in
  countEffects isSlackAlert fx
    = (if nonEmpty (WebhookURL (Slack (Alerts config))) then 1 else 0)%nat
  /\ countEffects isPagerDutyTrigger fx = O.
Proof.
  intros Hn fx.
  destruct (sendAlerts_dispatch service message w)
    as (w' & _ & _ & _ & _ & Hslack & Hpager & _).
  split; [exact Hslack|]. subst fx. rewrite Hpager, findService_absent by exact Hn.
  reflexivity.
Qed.

(** X7.  When several configured services bear the same name, the first of
    them in the configuration decides: an outage reported under that name
    pages if and only if that first service is critical and the paging key is
    set. *)
Theorem sendAlerts_first_of_name_decides pre s post message w :
  Services config = (pre ++ s :: post)%list ->
  ~ In (Name s) (map Name pre) ->
  countEffects isPagerDutyTrigger (effectsOf (sendAlerts env config (Name s) message) w)
  = (if CriticalService s && nonEmpty (ServiceKey (PagerDuty (Alerts config)))
     then 1 else 0)%nat.
Proof.
  intros Hcfg Hn.
  destruct (sendAlerts_dispatch (Name s) message w)
    as (w' & _ & _ & _ & _ & _ & Hpager & _).
  rewrite Hpager, Hcfg, findService_first by exact Hn. reflexivity.
Qed.

(** X15.  When a failure comes to an Up record whose alert flag is clear,
    the outage is handed to the dispatcher once, with the error text of that
    failure; the record ends Down with that text as its last error and the
    alert flag set, whatever becomes of the calls to the backends, of which
    there is one to the chat webhook if its URL is set and one to the paging
    backend if its key is set and the first configured service of that name
    is critical. *)
Theorem updateServiceStatus_outage_dispatch name errMsg responseTime w r :
  serviceStatus w !! name = Some r ->
  ServiceStatus.Status r = true ->
  ServiceStatus.AlertSent r = false ->
  let fx := effectsOf (updateServiceStatus env config name false errMsg responseTime) w in
  exists w' r',
    updateServiceStatus env config name false errMsg responseTime w = Done tt w'
    /\ serviceStatus w' !! name = Some r'
    /\ ServiceStatus.Status r' = false
    /\ ServiceStatus.LastError r' = errMsg
    /\ ServiceStatus.AlertSent r' = true
    /\ head fx = Some (OutageStarted name errMsg)
    /\ trackerEvents name fx = [EvOutageStarted]
    /\ countEffects isSlackAlert fx
       = (if nonEmpty (WebhookURL (Slack (Alerts config))) then 1 else 0)%nat
    /\ countEffects isPagerDutyTrigger fx
       = (if CriticalService (findService (Services config) name)
             && nonEmpty (ServiceKey (PagerDuty (Alerts config)))
          then 1 else 0)%nat.
Proof.
  intros Hr Hst Hal fx.
  destruct r as [n st lc le fc rt al rec]. cbn in Hst, Hal. subst st al.
  assert (Hrun : exists W,
    trace W = trace w
    /\ updateServiceStatus env config name false errMsg responseTime w
       = (sendAlerts env config name errMsg ;;
          assign name (ServiceStatus.set_AlertSent true)) W
    /\ serviceStatus W !! name
       = Some (ServiceStatus.mk n false (clock env (clockReads w)) errMsg
                 (wrap64 (fc + 1)) responseTime false rec)).
  { eexists. split; [|split].
    2: { unfold updateServiceStatus.
         unfold deref, assign, bind at 1 2 3 4 5 6 7 8, timeNow, ret.
         repeat (cbn [serviceStatus clockReads httpCalls trace negb andb orb
                      ServiceStatus.Status ServiceStatus.AlertSent
                      ServiceStatus.set_Status ServiceStatus.set_LastCheck
                      ServiceStatus.set_ResponseTime ServiceStatus.set_LastError
                      ServiceStatus.set_FailureCount ServiceStatus.Name
                      ServiceStatus.LastCheck ServiceStatus.LastError
                      ServiceStatus.FailureCount ServiceStatus.ResponseTime
                      ServiceStatus.RecoveryTime];
                 rewrite ?Hr, ?lookup_insert_eq).
         reflexivity. }
    - reflexivity.
    - cbn [serviceStatus]. apply lookup_insert_eq. }
  destruct Hrun as (W & HtW & Hrun & HrW).
  destruct (sendAlerts_dispatch name errMsg W)
    as (w1 & E1 & Hs1 & _ & _ & Hslack & Hpager & _).
  destruct (sendAlerts_Done env config name errMsg W)
    as (w1' & fxb & E1' & _ & Ht1 & Hb).
  rewrite E1 in E1'. injection E1' as <-.
  assert (Hfx1 : effectsOf (sendAlerts env config name errMsg) W
                 = OutageStarted name errMsg :: fxb).
  { apply effectsOf_app. rewrite E1. exact Ht1. }
  rewrite Hfx1 in Hslack, Hpager.
  assert (Hend : updateServiceStatus env config name false errMsg responseTime w
    = Done tt {| serviceStatus :=
                   <[name := ServiceStatus.mk n false (clock env (clockReads w)) errMsg
                               (wrap64 (fc + 1)) responseTime true rec]>
                     (serviceStatus w1);
                 clockReads := clockReads w1; httpCalls := httpCalls w1;
                 trace := trace w1 |}).
  { rewrite Hrun. unfold bind. rewrite E1. unfold assign. rewrite Hs1, HrW.
    reflexivity. }
  assert (Hfx : fx = OutageStarted name errMsg :: fxb).
  { subst fx. apply effectsOf_app. rewrite Hend. cbn [world trace].
    rewrite Ht1, HtW. reflexivity. }
  eexists _, _. split; [exact Hend|]. cbn [serviceStatus].
  split; [apply lookup_insert_eq|].
  cbn [ServiceStatus.Status ServiceStatus.LastError ServiceStatus.AlertSent].
  split; [reflexivity|]. split; [reflexivity|]. split; [reflexivity|].
  rewrite Hfx. split; [reflexivity|]. split.
  - cbn [trackerEvents]. rewrite String.eqb_refl, backend_no_events by exact Hb.
    reflexivity.
  - split; [exact Hslack|exact Hpager].
Qed.

(** ** More on the probe executor *)

Lemma probe_no_events name fx :
  forallb isProbe fx = true -> trackerEvents name fx = [].
Proof.
  induction fx as [|e fx IH]; [reflexivity|].
  cbn [forallb]. intros [He Hfx]%andb_prop.
  destruct e; try discriminate He; cbn [trackerEvents]; auto.
Qed.

(** The retry loop ends in one of two ways: the nil dereference of line 146,
    when it did not run and no error was held, or a call of the tracker with
    the time elapsed since [startTime]; before that it only requests and
    sleeps. *)
Lemma retryLoop_hands_over service startTime n : forall w lastErr,
  exists wmid fxp,
    serviceStatus wmid = serviceStatus w
    /\ trace wmid = (trace w ++ fxp)%list
    /\ forallb isProbe fxp = true
    /\ ((n = O /\ lastErr = None
         /\ retryLoop env config service (requestOf service) startTime n lastErr w
            = Panic nilDereference wmid)
        \/ (exists status msg,
              clockReads wmid = S (clockReads w)
              /\ retryLoop env config service (requestOf service) startTime n lastErr w
                 = updateServiceStatus env config (Name service) status msg
                     (clock env (clockReads w) - startTime) wmid)).
Proof.
  induction n as [|n IH]; intros w lastErr.
  - cbn [retryLoop]. destruct lastErr as [err|].
    + unfold timeSince, bind, timeNow, ret. cbv beta iota.
      exists {| serviceStatus := serviceStatus w; clockReads := S (clockReads w);
                httpCalls := httpCalls w; trace := trace w |}, [].
      cbn [serviceStatus clockReads httpCalls trace]. rewrite app_nil_r.
      repeat split. right. exists false, err. split; reflexivity.
    + exists w, []. rewrite app_nil_r. repeat split. left. auto.
  - set (W1 := {| serviceStatus := serviceStatus w; clockReads := clockReads w;
                  httpCalls := S (httpCalls w);
                  trace := (trace w ++
                    [ClientDo (requestOf service) (seconds (Timeout service))])%list |}).
    assert (Hrun :
      retryLoop env config service (requestOf service) startTime (S n) lastErr w
      = match network env (httpCalls w) with
        | TransportError err =>
            (emit (Sleep (seconds (RetryDelay service)));;
             retryLoop env config service (requestOf service) startTime n (Some err)) W1
        | Response code =>
            if (code =? ExpectedStatus service)%Z
            then updateServiceStatus env config (Name service) true ""
                   (clock env (clockReads w) - startTime)
                   {| serviceStatus := serviceStatus w; clockReads := S (clockReads w);
                      httpCalls := S (httpCalls w); trace := trace W1 |}
            else (emit (Sleep (seconds (RetryDelay service)));;
                  retryLoop env config service (requestOf service) startTime n
                    (Some ("unexpected status code: " ++ fmt_d code))) W1
        end).
    { cbn [retryLoop]. unfold bind at 1 2, emit at 1, roundTrip.
      cbn [serviceStatus clockReads httpCalls trace]. fold W1.
      destruct (network env (httpCalls w)) as [err|code]; [reflexivity|].
      destruct (code =? ExpectedStatus service)%Z; reflexivity. }
    rewrite Hrun. clear Hrun.
    assert (E : forall err,
      exists wmid fxp,
        serviceStatus wmid = serviceStatus w
        /\ trace wmid = (trace w ++ fxp)%list
        /\ forallb isProbe fxp = true
        /\ exists status msg,
             clockReads wmid = S (clockReads w)
             /\ (emit (Sleep (seconds (RetryDelay service)));;
                 retryLoop env config service (requestOf service) startTime n (Some err)) W1
                = updateServiceStatus env config (Name service) status msg
                    (clock env (clockReads w) - startTime) wmid).
    { intros err. unfold bind at 1, emit at 1. subst W1.
      cbn [serviceStatus clockReads httpCalls trace].
      match goal with
      | |- context [retryLoop _ _ _ _ _ _ _ ?W] =>
          destruct (IH W (Some err)) as (wmid & fxp & Hs & Ht & Hp & Hend)
      end.
      cbn [serviceStatus clockReads httpCalls trace] in Hs, Ht, Hend.
      exists wmid, (failedAttempt service ++ fxp)%list.
      split; [exact Hs|]. split; [rewrite Ht, <- !app_assoc; reflexivity|].
      split; [rewrite forallb_app, Hp; reflexivity|].
      destruct Hend as [(_ & Hnone & _)|(status & msg & Hc & Hrun)]; [discriminate|].
      exists status, msg. auto. }
    destruct (network env (httpCalls w)) as [err|code].
    + destruct (E err) as (wmid & fxp & Hs & Ht & Hp & (status & msg & Hc & Hrun)).
      exists wmid, fxp.
      split; [exact Hs|]. split; [exact Ht|]. split; [exact Hp|].
      right. exists status, msg. auto.
    + destruct (code =? ExpectedStatus service)%Z.
      * eexists _, [ClientDo (requestOf service) (seconds (Timeout service))].
        split; [|split; [|split; [reflexivity|]]].
        3: { right. exists true, "". split; [|reflexivity]. reflexivity. }
        all: reflexivity.
      * destruct (E ("unexpected status code: " ++ fmt_d code))
          as (wmid & fxp & Hs & Ht & Hp & (status & msg & Hc & Hrun)).
        exists wmid, fxp.
        split; [exact Hs|]. split; [exact Ht|]. split; [exact Hp|].
        right. exists status, msg. auto.
Qed.

(** The same for a whole probe. *)
Lemma checkService_hands_over service w :
  exists wmid fxp,
    serviceStatus wmid = serviceStatus w
    /\ trace wmid = (trace w ++ fxp)%list
    /\ forallb isProbe fxp = true
    /\ ((newRequestError env (Method service) (URL service) = None
         /\ Z.to_nat (RetryAttempts service) = O
         /\ checkService env config service w = Panic nilDereference wmid)
        \/ (exists status msg,
              clockReads wmid = S (S (clockReads w))
              /\ checkService env config service w
                 = updateServiceStatus env config (Name service) status msg
                     (clock env (S (clockReads w)) - clock env (clockReads w)) wmid)).
Proof.
  destruct (newRequestError env (Method service) (URL service)) as [err|] eqn:Hnew.
  - assert (Hrun : checkService env config service w
      = updateServiceStatus env config (Name service) false err
          (clock env (S (clockReads w)) - clock env (clockReads w))
          {| serviceStatus := serviceStatus w; clockReads := S (S (clockReads w));
             httpCalls := httpCalls w; trace := trace w |}).
    { unfold checkService, timeSince, bind, timeNow, ret. rewrite Hnew. reflexivity. }
    rewrite Hrun.
    eexists _, []. split; [|split; [|split; [reflexivity|]]].
    3: { right. exists false, err. split; [|reflexivity]. reflexivity. }
    + reflexivity.
    + cbn [trace]. rewrite app_nil_r. reflexivity.
  - assert (Hrun : checkService env config service w
      = retryLoop env config service (requestOf service) (clock env (clockReads w))
          (Z.to_nat (RetryAttempts service)) None
          {| serviceStatus := serviceStatus w; clockReads := S (clockReads w);
             httpCalls := httpCalls w; trace := trace w |}).
    { unfold checkService, bind, timeNow. rewrite Hnew. reflexivity. }
    rewrite Hrun.
    match goal with
    | |- context [retryLoop _ _ _ _ ?st ?n ?e ?W] =>
        destruct (retryLoop_hands_over service st n W e)
          as (wmid & fxp & Hs & Ht & Hp & Hend)
    end.
    cbn [serviceStatus clockReads httpCalls trace] in Hs, Ht, Hend.
    exists wmid, fxp. split; [exact Hs|]. split; [exact Ht|]. split; [exact Hp|].
    destruct Hend as [(Hn & _ & Hpanic)|(status & msg & Hc & Hupd)].
    + left. auto.
    + right. exists status, msg. auto.
Qed.

(** The tracker on a name that has no record. *)
Lemma updateServiceStatus_unregistered name status errMsg responseTime w :
  serviceStatus w !! name = None ->
  updateServiceStatus env config name status errMsg responseTime w
  = Panic nilDereference w.
Proof. intros Hr. unfold updateServiceStatus, bind, deref. rewrite Hr. reflexivity. Qed.



(** X10.  Whatever happens to a probe, it leaves the records of the other
    services as they were. *)
Theorem checkService_touches_one_record service w other :
  other <> Name service ->
  serviceStatus (world (checkService env config service w)) !! other
  = serviceStatus w !! other.
Proof.
  intros Hne.
  destruct (checkService_hands_over service w)
    as (wmid & fxp & Hs & _ & _ & [(_ & _ & Hrun)|(status & msg & _ & Hrun)]);
    rewrite Hrun.
  - cbn [world]. rewrite Hs. reflexivity.
  - destruct (serviceStatus wmid !! Name service) as [r|] eqn:Hr.
    + destruct (updateServiceStatus_Done env config (Name service) status msg
                (clock env (S (clockReads w)) - clock env (clockReads w)) wmid r Hr)
        as (w' & fx & E & Hs' & _).
      rewrite E. cbn [world]. rewrite Hs', lookup_insert_ne, Hs by congruence.
      reflexivity.
    + rewrite updateServiceStatus_unregistered by exact Hr.
      cbn [world]. rewrite Hs. reflexivity.
Qed.

Lemma count_requests_probeEffects service k n :
  countEffects isClientDo (probeEffects service k n)
  = (k + (if (k <? n)%nat then 1 else 0))%nat.
Proof.
  unfold probeEffects, countEffects. rewrite List.filter_app, length_app.
  change (length (List.filter isClientDo (concat (replicate k (failedAttempt service)))))
    with (countEffects isClientDo (concat (replicate k (failedAttempt service)))).
  rewrite count_requests_failed. destruct (k <? n)%nat; reflexivity.
Qed.

Lemma count_sleeps_probeEffects service k n :
  countEffects isSleep (probeEffects service k n) = k.
Proof.
  unfold probeEffects, countEffects. rewrite List.filter_app, length_app.
  change (length (List.filter isSleep (concat (replicate k (failedAttempt service)))))
    with (countEffects isSleep (concat (replicate k (failedAttempt service)))).
  rewrite count_sleeps_failed. destruct (k <? n)%nat; cbn; lia.
Qed.



(** When an attempt meets the expected status after [k] failed ones, the
    loop stops there and reports a success with an empty message. *)
Lemma retryLoop_first_success service startTime n : forall w lastErr,
  (leadingFailures env service (httpCalls w) n < n)%nat ->
  retryLoop env config service (requestOf service) startTime n lastErr w
  = updateServiceStatus env config (Name service) true ""
      (clock env (clockReads w) - startTime)
      {| serviceStatus := serviceStatus w; clockReads := S (clockReads w);
         httpCalls := httpCalls w + S (leadingFailures env service (httpCalls w) n);
         trace := (trace w ++
           probeEffects service (leadingFailures env service (httpCalls w) n) n)%list |}.
Proof.
  induction n as [|n IH]; intros w lastErr Hk; [cbn in Hk; lia|].
  cbn [retryLoop leadingFailures] in *. unfold bind at 1 2, emit at 1, roundTrip.
  cbn [serviceStatus clockReads httpCalls trace].
  assert (E : forall err,
    (leadingFailures env service (S (httpCalls w)) n < n)%nat ->
    (emit (Sleep (seconds (RetryDelay service)));;
     retryLoop env config service (requestOf service) startTime n (Some err))
      {| serviceStatus := serviceStatus w; clockReads := clockReads w;
         httpCalls := S (httpCalls w);
         trace := (trace w ++
           [ClientDo (requestOf service) (seconds (Timeout service))])%list |}
    = updateServiceStatus env config (Name service) true ""
        (clock env (clockReads w) - startTime)
        {| serviceStatus := serviceStatus w; clockReads := S (clockReads w);
           httpCalls := httpCalls w
                        + S (S (leadingFailures env service (S (httpCalls w)) n));
           trace := (trace w ++
             probeEffects service
               (S (leadingFailures env service (S (httpCalls w)) n)) (S n))%list |}).
  { intros err Hk'. unfold bind at 1, emit at 1.
    cbn [serviceStatus clockReads httpCalls trace].
    rewrite IH by exact Hk'.
    cbn [serviceStatus clockReads httpCalls trace].
    f_equal. f_equal; [lia|].
    unfold probeEffects. cbn [replicate concat failedAttempt].
    change (S (leadingFailures env service (S (httpCalls w)) n) <? S n)%nat
      with (leadingFailures env service (S (httpCalls w)) n <? n)%nat.
    rewrite <- !app_assoc. reflexivity. }
  destruct (network env (httpCalls w)) as [err|code]; cbn [failing] in *.
  - apply E. lia.
  - destruct (code =? ExpectedStatus service)%Z; cbn [negb] in *.
    + unfold timeSince, bind, timeNow, ret. cbv beta iota.
      cbn [serviceStatus clockReads httpCalls trace].
      rewrite Nat.add_1_r. reflexivity.
    + apply E. lia.
Qed.

(** X12.  When the first [k] attempts of a probe fail and the next one, still
    within [retry_attempts], meets the expected status, the probe stops there:
    it has issued [k + 1] requests and slept [k] times, and it reports a
    success with an empty message; a registered service ends Up with its last
    error untouched by the errors of the failed attempts, and its failure
    count is kept if it was Up and reset to 0 if it was Down. *)
Theorem checkService_stops_at_first_success service w :
  newRequestError env (Method service) (URL service) = None ->
  let N := Z.to_nat (RetryAttempts service) in
  let k := leadingFailures env service (httpCalls w) N in
  (k < N)%nat ->
  (exists wmid,
     checkService env config service w
       = updateServiceStatus env config (Name service) true ""
           (clock env (S (clockReads w)) - clock env (clockReads w)) wmid
     /\ httpCalls wmid = (httpCalls w + S k)%nat
     /\ serviceStatus wmid = serviceStatus w)
  /\ countEffects isClientDo (effectsOf (checkService env config service) w) = S k
  /\ countEffects isSleep (effectsOf (checkService env config service) w) = k
  /\ (forall r, serviceStatus w !! Name service = Some r ->
        exists r',
          serviceStatus (world (checkService env config service w)) !! Name service
            = Some r'
          /\ ServiceStatus.Status r' = true
          /\ ServiceStatus.LastError r' = ServiceStatus.LastError r
          /\ ServiceStatus.FailureCount r'
             = (if ServiceStatus.Status r then ServiceStatus.FailureCount r else 0)).
Proof.
  intros Hnew N k Hk.
  assert (Hrun : exists wmid,
     checkService env config service w
       = updateServiceStatus env config (Name service) true ""
           (clock env (S (clockReads w)) - clock env (clockReads w)) wmid
     /\ httpCalls wmid = (httpCalls w + S k)%nat
     /\ serviceStatus wmid = serviceStatus w).
  { unfold checkService, bind at 1, timeNow. rewrite Hnew.
    rewrite retryLoop_first_success by exact Hk.
    eexists. split; [reflexivity|]. split; reflexivity. }
  split; [exact Hrun|]. split; [|split].
  - rewrite count_requests_probe, checkService_probe_effects by exact Hnew.
    fold N. fold k. rewrite count_requests_probeEffects.
    apply Nat.ltb_lt in Hk. rewrite Hk. lia.
  - rewrite count_sleeps_probe, checkService_probe_effects by exact Hnew.
    apply count_sleeps_probeEffects.
  - intros r Hr. destruct Hrun as (wmid & E & _ & Hs). rewrite E.
    rewrite <- Hs in Hr.
    destruct (updateServiceStatus_Done env config (Name service) true ""
                (clock env (S (clockReads w)) - clock env (clockReads w)) wmid r Hr)
      as (w' & fx & E' & Hs' & _).
    rewrite E'. cbn [world]. rewrite Hs', lookup_insert_eq.
    eexists. split; [reflexivity|].
    rewrite recordAfter_Status, recordAfter_LastError.
    split; [reflexivity|]. split; [reflexivity|].
    unfold recordAfter. cbn [negb].
    destruct (ServiceStatus.Status r); reflexivity.
Qed.

(** ** The goroutine of a service *)

(** The turns of the loop follow [steps], one outcome for each turn. *)
Lemma monitorLoop_steps service rounds : forall w r,
  serviceStatus w !! Name service = Some r ->
  (newRequestError env (Method service) (URL service) = None ->
   1 <= RetryAttempts service) ->
  exists w' r' fx outcomes,
    monitorLoop env config service rounds w = Done tt w'
    /\ serviceStatus w' !! Name service = Some r'
    /\ trace w' = (trace w ++ fx)%list
    /\ length outcomes = rounds
    /\ steps r outcomes r' (trackerEvents (Name service) fx).
Proof.
  induction rounds as [|rounds IH]; intros w r Hr Hretry.
  - exists w, r, [], []. rewrite app_nil_r. repeat split; auto. constructor.
  - cbn [monitorLoop]. unfold bind.
    destruct (checkService_hands_over service w)
      as (wmid & fxp & Hs & Ht & Hp & [(Hnew & Hn & _)|(status & msg & Hc & Hrun)]).
    { specialize (Hretry Hnew). lia. }
    rewrite Hrun. rewrite <- Hs in Hr.
    destruct (updateServiceStatus_Done env config (Name service) status msg
                (clock env (S (clockReads w)) - clock env (clockReads w)) wmid r Hr)
      as (w1 & fx1 & E & Hs1 & Ht1 & Hev & _).
    rewrite E.
    destruct (IH w1 _ ltac:(rewrite Hs1; apply lookup_insert_eq) Hretry)
      as (w' & r' & fx & outcomes & E' & Hr' & Ht' & Hlen & Hst).
    exists w', r', (fxp ++ fx1 ++ fx)%list,
      ({| success := status; errorText := msg;
          latency := clock env (S (clockReads w)) - clock env (clockReads w) |}
       :: outcomes).
    split; [exact E'|]. split; [exact Hr'|].
    split; [rewrite Ht', Ht1, Ht, <- !app_assoc; reflexivity|].
    split; [cbn [length]; congruence|].
    rewrite !trackerEvents_app, (probe_no_events _ _ Hp), Hev. cbn [app].
    econstructor. exact Hst.
Qed.

(** X13.  The goroutine of a registered service whose interval is positive
    and whose probes have at least one attempt to make never panics, for any
    number of turns of its loop and whatever the network replies; the events
    it raises from the initial record alternate, an outage start first, and
    after any number of turns the alert flag is set exactly when the service
    is Down. *)
Theorem monitorService_never_panics service now rounds w :
  serviceStatus w !! Name service = Some (ServiceStatus.initial (Name service) now) ->
  0 < seconds (CheckInterval service) ->
  (newRequestError env (Method service) (URL service) = None ->
   1 <= RetryAttempts service) ->
  exists w' r',
    monitorService env config service rounds w = Done tt w'
    /\ serviceStatus w' !! Name service = Some r'
    /\ alternates false
         (trackerEvents (Name service)
            (effectsOf (monitorService env config service rounds) w)) = true
    /\ ServiceStatus.AlertSent r' = negb (ServiceStatus.Status r').
Proof.
  intros Hr Hint Hretry.
  assert (Hm : monitorService env config service rounds
               = monitorLoop env config service rounds).
  { unfold monitorService. destruct (Z.leb_spec (seconds (CheckInterval service)) 0);
      [lia|reflexivity]. }
  rewrite Hm.
  destruct (monitorLoop_steps service rounds w _ Hr Hretry)
    as (w' & r' & fx & outcomes & E & Hr' & Ht & _ & Hst).
  destruct (steps_events _ _ _ _ Hst (initial_mirror (Name service) now))
    as (Hev & Hmirror & _).
  exists w', r'. split; [exact E|]. split; [exact Hr'|]. split; [|exact Hmirror].
  rewrite (effectsOf_app _ w fx) by (rewrite E; exact Ht).
  rewrite Hev. apply (expectedEvents_alternate true).
Qed.

(** X14.  Start-up followed by the goroutine of a configured service whose
    interval is positive and whose probes have at least one attempt to make:
    neither panics, for any number of turns and whatever the clock and the
    network do, and the events raised for the service alternate, an outage
    start first. *)
Theorem monitor_configured_service service rounds :
  In service (Services config) ->
  0 < seconds (CheckInterval service) ->
  (newRequestError env (Method service) (URL service) = None ->
   1 <= RetryAttempts service) ->
  exists w0 w',
    NewMonitor env config = Done tt w0
    /\ monitorService env config service rounds w0 = Done tt w'
    /\ alternates false (trackerEvents (Name service) (trace w')) = true.
Proof.
  intros Hin Hint Hretry. unfold NewMonitor.
  destruct (initServiceStatus_spec (Services config) emptyWorld)
    as (w0 & E0 & _ & _ & Ht0 & Hreg & _).
  destruct (Hreg (Name service) (in_map Name _ _ Hin)) as (i & _ & Hr).
  assert (Hm : monitorService env config service rounds
               = monitorLoop env config service rounds).
  { unfold monitorService. destruct (Z.leb_spec (seconds (CheckInterval service)) 0);
      [lia|reflexivity]. }
  destruct (monitorLoop_steps service rounds w0 _ Hr Hretry)
    as (w' & r' & fx & outcomes & E & _ & Ht & _ & Hst).
  destruct (steps_events _ _ _ _ Hst (initial_mirror (Name service) _)) as (Hev & _).
  exists w0, w'. split; [exact E0|]. rewrite Hm. split; [exact E|].
  rewrite Ht, Ht0. cbn [emptyWorld trace app].
  rewrite Hev. apply (expectedEvents_alternate true).
Qed.

End MoreFacts.

(** ** The further properties on the samples *)

(** X2 on a failure applied to [api]. *)
Lemma updateServiceStatus_stamps_every_outcome_witness :
  exists w' r',
    updateServiceStatus sampleEnv sampleConfig "api" false "refused" (3 * Second)
      startWorld = Done tt w'
    /\ serviceStatus w' !! "api" = Some r'
    /\ ServiceStatus.Status r' = false
    /\ ServiceStatus.LastCheck r' = clock sampleEnv (clockReads startWorld)
    /\ ServiceStatus.ResponseTime r' = 3 * Second
    /\ ServiceStatus.Name r' = "api"
    /\ (forall other, other <> "api" ->
          serviceStatus w' !! other = serviceStatus startWorld !! other).
Proof.
  apply (updateServiceStatus_stamps_every_outcome sampleEnv sampleConfig "api" false
           "refused" (3 * Second) startWorld (ServiceStatus.initial "api" 0)).
  vm_compute. reflexivity.
Defined.

(** X3 on a success applied to [api], which is Up. *)
Lemma updateServiceStatus_steady_state_witness :
  exists w' r',
    updateServiceStatus sampleEnv sampleConfig "api" true "" Second startWorld
      = Done tt w'
    /\ trace w' = trace startWorld
    /\ httpCalls w' = httpCalls startWorld
    /\ clockReads w' = S (clockReads startWorld)
    /\ serviceStatus w' !! "api" = Some r'
    /\ ServiceStatus.AlertSent r' = false
    /\ ServiceStatus.RecoveryTime r' = None
    /\ ServiceStatus.FailureCount r' = 0.
Proof.
  apply (updateServiceStatus_steady_state sampleEnv sampleConfig "api" true ""
           Second startWorld (ServiceStatus.initial "api" 0)).
  - vm_compute. reflexivity.
  - reflexivity.
Defined.

(** X4 on the recovery of [api]. *)
Lemma updateServiceStatus_recovery_dispatch_witness :
  let fx := effectsOf (updateServiceStatus sampleEnv sampleConfig "api" true "" Second)
              downWorld in
  exists w' r',
    updateServiceStatus sampleEnv sampleConfig "api" true "" Second downWorld
      = Done tt w'
    /\ serviceStatus w' !! "api" = Some r'
    /\ ServiceStatus.RecoveryTime r'
       = Some (clock sampleEnv (S (clockReads downWorld)))
    /\ ServiceStatus.FailureCount r' = 0
    /\ ServiceStatus.AlertSent r' = false
    /\ countEffects isSlackRecovery fx = 1%nat
    /\ countEffects isPagerDutyResolve fx = 1%nat
    /\ countEffects isPagerDutyTrigger fx = O
    /\ countEffects isSlackAlert fx = O.
Proof.
  apply (updateServiceStatus_recovery_dispatch sampleEnv sampleConfig "api" "" Second
           downWorld
           (ServiceStatus.mk "api" false (2 * Second) "boom" 1 (3 * Second) true None)).
  - vm_compute. reflexivity.
  - reflexivity.
Defined.

(** X6 on a name that is not configured. *)
Lemma sendAlerts_unknown_service_never_pages_witness :
  let fx := effectsOf (sendAlerts sampleEnv sampleConfig "db" "refused") startWorld in
  countEffects isSlackAlert fx = 1%nat
  /\ countEffects isPagerDutyTrigger fx = O.
Proof.
  apply (sendAlerts_unknown_service_never_pages sampleEnv sampleConfig "db" "refused"
           startWorld).
  simpl. intros [H|[H|[]]]; discriminate H.
Defined.

(** X7 where a critical [api] comes after an [api] that is not: no paging. *)
Lemma sendAlerts_first_of_name_decides_witness :
  countEffects isPagerDutyTrigger
    (effectsOf (sendAlerts sampleEnv duplicateConfig "api" "refused") startWorld)
  = O.
Proof.
  apply (sendAlerts_first_of_name_decides sampleEnv duplicateConfig
           [sampleService "web" 1 false] (sampleService "api" 3 false)
           [sampleService "api" 3 true] "refused" startWorld).
  - reflexivity.
  - simpl. intros [H|[]]. discriminate H.
Defined.



(** X10: a probe of [api] leaves the record of [web]. *)
Lemma checkService_touches_one_record_witness :
  serviceStatus
    (world (checkService sampleEnv sampleConfig (sampleService "api" 3 true) startWorld))
    !! "web"
  = serviceStatus startWorld !! "web".
Proof.
  apply (checkService_touches_one_record sampleEnv sampleConfig
           (sampleService "api" 3 true) startWorld "web").
  simpl. discriminate.
Defined.

(** X12: the second of three attempts succeeds. *)
Lemma checkService_stops_at_first_success_witness :
  let service := sampleService "api" 3 true in
  (exists wmid,
     checkService flakyEnv sampleConfig service startWorld
       = updateServiceStatus flakyEnv sampleConfig "api" true ""
           (clock flakyEnv (S (clockReads startWorld))
            - clock flakyEnv (clockReads startWorld)) wmid
     /\ httpCalls wmid = (httpCalls startWorld + 2)%nat
     /\ serviceStatus wmid = serviceStatus startWorld)
  /\ countEffects isClientDo
       (effectsOf (checkService flakyEnv sampleConfig service) startWorld) = 2%nat
  /\ countEffects isSleep
       (effectsOf (checkService flakyEnv sampleConfig service) startWorld) = 1%nat
  /\ (forall r, serviceStatus startWorld !! "api" = Some r ->
        exists r',
          serviceStatus (world (checkService flakyEnv sampleConfig service startWorld))
            !! "api" = Some r'
          /\ ServiceStatus.Status r' = true
          /\ ServiceStatus.LastError r' = ServiceStatus.LastError r
          /\ ServiceStatus.FailureCount r'
             = (if ServiceStatus.Status r then ServiceStatus.FailureCount r else 0)).
Proof.
  apply (checkService_stops_at_first_success flakyEnv sampleConfig
           (sampleService "api" 3 true) startWorld).
  - reflexivity.
  - vm_compute. lia.
Defined.

(** X13: five turns of the loop of [api] on a network that always fails. *)
Lemma monitorService_never_panics_witness :
  exists w' r',
    monitorService sampleEnv sampleConfig (sampleService "api" 3 true) 5 startWorld
      = Done tt w'
    /\ serviceStatus w' !! "api" = Some r'
    /\ alternates false
         (trackerEvents "api"
            (effectsOf (monitorService sampleEnv sampleConfig
                          (sampleService "api" 3 true) 5) startWorld)) = true
    /\ ServiceStatus.AlertSent r' = negb (ServiceStatus.Status r').
Proof.
  apply (monitorService_never_panics sampleEnv sampleConfig
           (sampleService "api" 3 true) 0 5 startWorld).
  - vm_compute. reflexivity.
  - vm_compute. reflexivity.
  - intros _. simpl. lia.
Defined.

(** X14: start-up, then five turns of the loop of [api]. *)
Lemma monitor_configured_service_witness :
  exists w0 w',
    NewMonitor sampleEnv sampleConfig = Done tt w0
    /\ monitorService sampleEnv sampleConfig (sampleService "api" 3 true) 5 w0
       = Done tt w'
    /\ alternates false (trackerEvents "api" (trace w')) = true.
Proof.
  apply (monitor_configured_service sampleEnv sampleConfig
           (sampleService "api" 3 true) 5).
  - simpl. auto.
  - vm_compute. reflexivity.
  - intros _. simpl. lia.
Defined.

(** X15 on the first failure of [api], which is critical. *)
Lemma updateServiceStatus_outage_dispatch_witness :
  let fx := effectsOf (updateServiceStatus sampleEnv sampleConfig "api" false "refused"
                         (3 * Second)) startWorld in
  exists w' r',
    updateServiceStatus sampleEnv sampleConfig "api" false "refused" (3 * Second)
      startWorld = Done tt w'
    /\ serviceStatus w' !! "api" = Some r'
    /\ ServiceStatus.Status r' = false
    /\ ServiceStatus.LastError r' = "refused"
    /\ ServiceStatus.AlertSent r' = true
    /\ head fx = Some (OutageStarted "api" "refused")
    /\ trackerEvents "api" fx = [EvOutageStarted]
    /\ countEffects isSlackAlert fx = 1%nat
    /\ countEffects isPagerDutyTrigger fx = 1%nat.
Proof.
  apply (updateServiceStatus_outage_dispatch sampleEnv sampleConfig "api" "refused"
           (3 * Second) startWorld (ServiceStatus.initial "api" 0)).
  - vm_compute. reflexivity.
  - reflexivity.
  - reflexivity.
Defined.
